(** * Patna Metro route API: a shallow embedding of [server.js]

    The development follows the source top-down: the JavaScript values the
    resolver manipulates, the [metroData] literal, the array primitives
    ([indexOf], [slice], [reverse]), [findRoute] itself and the estimation
    arithmetic of the [/api/route] handler.  The network is passed
    explicitly ([findRouteIn]) so that the algorithm can be studied on any
    topology; [findRoute] is the instance the program runs, on the
    configured [metroData]. *)

From stdpp Require Import gmap strings list fin_maps.
From Stdlib Require Import ZArith Lia.

Local Open Scope string_scope.
Local Open Scope Z_scope.
Local Open Scope list_scope.

(** ** Completions

    [findRoute] either returns a value or is abandoned by an exception
    (reading [.indexOf] of [undefined]). *)

Inductive JsError : Set :=
| TypeError.

Inductive completion (A : Type) : Type :=
| Normal (a : A)
| Throw (e : JsError).

Arguments Normal {A} a.
Arguments Throw {A} e.

(** Sequencing is stdpp's monadic bind, so that [x ← c; k] reads like the
    statement sequence it stands for. *)

#[global] Instance completion_ret : MRet completion := λ A a, Normal a.

#[global] Instance completion_bind : MBind completion := λ A B k c,
  match c with
  | Normal a => k a
  | Throw e => Throw e
  end.

(** ** The network data *)

Record StationNode : Set := mkStation {
  line : Z;
  interchange : bool
}.

(** [stations] and [lines] are only ever read by key, so they are finite
    maps.  [interchanges] is enumerated by [for ... in]: its keys are kept
    in enumeration order (for keys that are not array indices, which
    station names are not, that is the order of the literal).  The arrays of
    line numbers stored under each key are never read by the program. *)

Module MetroData.
Record t : Type := mk {
  stations : gmap string StationNode;
  lines : gmap Z (list string);
  interchanges : list (string * list Z)
}.
End MetroData.

(** The result object built by [findRoute]; [changeAt] is [None] for
    [null]. *)

Module Route.
Record t : Set := mk {
  path : list string;
  interchanges : Z;
  changeAt : option string
}.
End Route.

Definition metroData : MetroData.t :=
  MetroData.mk
    (list_to_map
       [ ("Danapur Cantonment", mkStation 1 false);
         ("Saguna More", mkStation 1 false);
         ("RPS More", mkStation 1 false);
         ("Patliputra", mkStation 1 false);
         ("Rukanpura", mkStation 1 false);
         ("Raja Bazar", mkStation 1 false);
         ("Patna Zoo", mkStation 1 false);
         ("Vikas Bhawan", mkStation 1 false);
         ("Vidyut Bhawan", mkStation 1 false);
         ("Patna Junction", mkStation 1 true);
         ("Mithapur", mkStation 1 false);
         ("Ramkrishna Nagar", mkStation 1 false);
         ("Jaganpur", mkStation 1 false);
         ("Khemni Chak", mkStation 1 true);
         ("New ISBT", mkStation 2 false);
         ("Zero Mile", mkStation 2 false);
         ("Bhoothnath", mkStation 2 false);
         ("Malahi Pakri", mkStation 2 false);
         ("Rajendra Nagar", mkStation 2 false);
         ("Moin Ul Haq Stadium", mkStation 2 false);
         ("Patna University", mkStation 2 false);
         ("PMCH", mkStation 2 false);
         ("Gandhi Maidan", mkStation 2 false);
         ("Akashvani", mkStation 2 false) ])
    (list_to_map
       [ (1, [ "Danapur Cantonment"; "Saguna More"; "RPS More"; "Patliputra";
               "Rukanpura"; "Raja Bazar"; "Patna Zoo"; "Vikas Bhawan";
               "Vidyut Bhawan"; "Patna Junction"; "Mithapur";
               "Ramkrishna Nagar"; "Jaganpur"; "Khemni Chak" ]);
         (2, [ "Patna Junction"; "Akashvani"; "Gandhi Maidan"; "PMCH";
               "Patna University"; "Moin Ul Haq Stadium"; "Rajendra Nagar";
               "Malahi Pakri"; "Khemni Chak"; "Bhoothnath"; "Zero Mile";
               "New ISBT" ]) ])
    [ ("Patna Junction", [1; 2]);
      ("Khemni Chak", [1; 2]) ].

Definition TIME_PER_STATION_MINS : Z := 2.
Definition COST_PER_STATION_INR : Z := 5.
Definition INTERCHANGE_TIME_MINS : Z := 5.

(** ** Property reads

    [metroData.stations[name]] is an ordinary property read on an object
    literal: when [name] is not an own key the read continues in
    [Object.prototype].  The names below are the properties every plain
    object inherits; each holds a function (or, for [__proto__], the
    prototype object itself), so the value read is truthy and has no
    [line] property. *)

Definition objectPrototypeKeys : list string :=
  [ "constructor"; "__defineGetter__"; "__defineSetter__"; "hasOwnProperty";
    "__lookupGetter__"; "__lookupSetter__"; "isPrototypeOf";
    "propertyIsEnumerable"; "toString"; "valueOf"; "__proto__";
    "toLocaleString" ].

Inductive StationRef : Set :=
| OwnNode (n : StationNode)
| Inherited
| Undefined.

Definition getStation (md : MetroData.t) (name : string) : StationRef :=
  match MetroData.stations md !! name with
  | Some n => OwnNode n
  | None =>
      if bool_decide (name ∈ objectPrototypeKeys) then Inherited
      else Undefined
  end.

Definition truthy (v : StationRef) : bool :=
  match v with
  | Undefined => false
  | _ => true
  end.

(** [node.line]; [None] is [undefined]. *)
Definition lineOf (v : StationRef) : option Z :=
  match v with
  | OwnNode n => Some (line n)
  | _ => None
  end.

(** [metroData.lines[l]]; the keys of [lines] are numerals, so neither
    [undefined] nor a number reaches an inherited property. *)
Definition getLine (md : MetroData.t) (l : option Z) : option (list string) :=
  l ≫= λ k, MetroData.lines md !! k.

(** Calling [.indexOf] on the value read from [lines] throws when that
    value is [undefined]. *)
Definition lineArray (md : MetroData.t) (l : option Z)
  : completion (list string) :=
  match getLine md l with
  | Some a => Normal a
  | None => Throw TypeError
  end.

(** ** Array primitives *)

(** [Array.prototype.indexOf]: first position holding [x], or [-1]. *)
Definition indexOf (a : list string) (x : string) : Z :=
  match list_find (λ y, y = x) a with
  | Some (i, _) => Z.of_nat i
  | None => -1
  end.

(** Clamping of a relative index as [Array.prototype.slice] does it:
    negative indices count from the end. *)
Definition relativeIndex (len i : Z) : Z :=
  if bool_decide (i < 0) then Z.max (len + i) 0 else Z.min i len.

Definition slice (a : list string) (start stop : Z) : list string :=
  let len := Z.of_nat (length a) in
  let k := relativeIndex len start in
  let final := relativeIndex len stop in
  take (Z.to_nat (final - k)) (drop (Z.to_nat k) a).

(** [a.slice(start)]: the end defaults to the length. *)
Definition sliceFrom (a : list string) (start : Z) : list string :=
  slice a start (Z.of_nat (length a)).

(** The three-line idiom the source repeats for every leg:
    [p = a.slice(min(i, j), max(i, j) + 1); if (i > j) p.reverse();]. *)
Definition spanPath (a : list string) (i j : Z) : list string :=
  let p := slice a (Z.min i j) (Z.max i j + 1) in
  if bool_decide (i > j) then reverse p else p.

(** ** findRoute *)

(** [for (const k in obj) body]: the body may throw, which abandons the
    loop. *)
Fixpoint forIn {S : Type} (body : S → string → completion S)
    (keys : list string) (s : S) : completion S :=
  match keys with
  | [] => Normal s
  | k :: ks => s' ← body s k; forIn body ks s'
  end.

(** The full path through one interchange station, or [None] when an
    iteration ends in [continue]. *)
Definition candidatePath (md : MetroData.t) (startNode endNode : StationRef)
    (startStation endStation interchangeStation : string)
  : completion (option (list string)) :=
  line1 ← lineArray md (lineOf startNode);
  let startIndex1 := indexOf line1 startStation in
  let interchangeIndex1 := indexOf line1 interchangeStation in
  if bool_decide (interchangeIndex1 = -1) then Normal None
  else
    let path1 := spanPath line1 startIndex1 interchangeIndex1 in
    line2 ← lineArray md (lineOf endNode);
    let interchangeIndex2 := indexOf line2 interchangeStation in
    let endIndex2 := indexOf line2 endStation in
    if bool_decide (interchangeIndex2 = -1) then Normal None
    else
      let path2 := spanPath line2 interchangeIndex2 endIndex2 in
      Normal (Some (path1 ++ sliceFrom path2 1)).

(** The update at the end of an iteration:
    [if (!bestRoute || fullPath.length < bestRoute.path.length)]. *)
Definition keepBest (bestRoute : option Route.t) (fullPath : list string)
    (interchangeStation : string) : option Route.t :=
  let candidate := Route.mk fullPath 1 (Some interchangeStation) in
  match bestRoute with
  | None => Some candidate
  | Some b =>
      if bool_decide (length fullPath < length (Route.path b))%nat
      then Some candidate
      else bestRoute
  end.

Definition loopBody (md : MetroData.t) (startNode endNode : StationRef)
    (startStation endStation : string)
    (bestRoute : option Route.t) (interchangeStation : string)
  : completion (option Route.t) :=
  c ← candidatePath md startNode endNode startStation endStation
        interchangeStation;
  match c with
  | None => Normal bestRoute
  | Some fullPath => Normal (keepBest bestRoute fullPath interchangeStation)
  end.

(** [findRoute] with the network it reads made explicit.  [Normal None]
    is the [null] result. *)
Definition findRouteIn (md : MetroData.t) (startStation endStation : string)
  : completion (option Route.t) :=
  let startNode := getStation md startStation in
  let endNode := getStation md endStation in
  if negb (truthy startNode) || negb (truthy endNode) then Normal None
  else if bool_decide (lineOf startNode = lineOf endNode) then
    a ← lineArray md (lineOf startNode);
    let startIndex := indexOf a startStation in
    let endIndex := indexOf a endStation in
    Normal (Some (Route.mk (spanPath a startIndex endIndex) 0 None))
  else
    forIn (loopBody md startNode endNode startStation endStation)
          (MetroData.interchanges md).*1 None.

Definition findRoute : string → string → completion (option Route.t) :=
  findRouteIn metroData.

(** ** The [/api/route] handler

    [req.query.from] and [req.query.to] are either absent ([None]) or
    strings; [!from] also holds for the empty string.  A query string that
    repeats a parameter, or writes it with brackets, makes the query
    parser deliver an array or an object instead; such values are outside
    this model, and what is proved of [apiRoute] is proved for string
    parameters. *)

Definition numberOfStations (route : Route.t) : Z :=
  Z.of_nat (length (Route.path route)) - 1.

Definition estimatedTime (route : Route.t) : Z :=
  numberOfStations route * TIME_PER_STATION_MINS
  + Route.interchanges route * INTERCHANGE_TIME_MINS.

Definition estimatedPrice (route : Route.t) : Z :=
  numberOfStations route * COST_PER_STATION_INR.

Module Response.
Record t : Set := mk {
  from : string;
  to : string;
  route : list string;
  numberOfStations : Z;
  numberOfInterchanges : Z;
  changeAt : option string;
  estimatedTimeMinutes : Z;
  estimatedPriceINR : Z
}.
End Response.

(** The two error replies carry a fixed message each, which is left out. *)
Inductive Reply : Set :=
| Status400
| Status404
| Json (response : Response.t).

(** [!param] *)
Definition missing (param : option string) : bool :=
  match param with
  | None => true
  | Some s => bool_decide (s = EmptyString)
  end.

Definition apiRouteIn (md : MetroData.t) (from to : option string)
  : completion Reply :=
  match from, to with
  | Some f, Some t =>
      if missing from || missing to then Normal Status400
      else
        route ← findRouteIn md f t;
        match route with
        | None => Normal Status404
        | Some route =>
            Normal (Json (Response.mk f t (Route.path route)
                            (numberOfStations route)
                            (Route.interchanges route)
                            (Route.changeAt route)
                            (estimatedTime route)
                            (estimatedPrice route)))
        end
  | _, _ => Normal Status400
  end.

Definition apiRoute : option string → option string → completion Reply :=
  apiRouteIn metroData.

(** ** Vocabulary of the statements *)

(** A registered station is an own key of [stations]. *)
Definition registered (md : MetroData.t) (name : string) : Prop :=
  is_Some (MetroData.stations md !! name).

(** A name the station lookup reads as [undefined]. *)
Definition unknownName (md : MetroData.t) (name : string) : Prop :=
  MetroData.stations md !! name = None ∧ name ∉ objectPrototypeKeys.

(** The home line of a registered station. *)
Definition homeLine (md : MetroData.t) (name : string) : option Z :=
  line <$> MetroData.stations md !! name.

(** A network without any interchange, used to observe the result of the
    cross-line loop when nothing bridges the two lines. *)
Definition isolatedLines : MetroData.t :=
  MetroData.mk
    (list_to_map [ ("A", mkStation 1 false); ("B", mkStation 2 false) ])
    (list_to_map [ (1, [ "A" ]); (2, [ "B" ]) ])
    [].

(** Pure view of one loop iteration once both line arrays are known. *)
Definition bridge (line1 line2 : list string)
    (startStation endStation interchangeStation : string)
  : option (list string) :=
  if bool_decide (indexOf line1 interchangeStation = -1) then None
  else if bool_decide (indexOf line2 interchangeStation = -1) then None
  else
    Some (spanPath line1 (indexOf line1 startStation)
                         (indexOf line1 interchangeStation)
          ++ sliceFrom (spanPath line2 (indexOf line2 interchangeStation)
                                       (indexOf line2 endStation)) 1).

(** Pure view of the whole loop: the iterations folded over the keys. *)
Definition pickBest (cand : string → option (list string))
    (keys : list string) (bestRoute : option Route.t) : option Route.t :=
  foldl (λ best k,
           match cand k with
           | None => best
           | Some fullPath => keepBest best fullPath k
           end) bestRoute keys.

(** Whatever the loop holds was stored by [keepBest]. *)
Definition viaInterchange (best : option Route.t) : Prop :=
  ∀ r, best = Some r →
       Route.interchanges r = 1 ∧ is_Some (Route.changeAt r).

(** Routes of the same length through the same interchange. *)
Definition sameShape (r1 r2 : option Route.t) : Prop :=
  match r1, r2 with
  | None, None => True
  | Some a, Some b =>
      length (Route.path a) = length (Route.path b)
      ∧ Route.interchanges a = Route.interchanges b
      ∧ Route.changeAt a = Route.changeAt b
  | _, _ => False
  end.

(** Every registered station lies on its home line, and both interchange
    keys lie on every line. *)
Definition onHomeLine (name : string) (n : StationNode) : bool :=
  match MetroData.lines metroData !! line n with
  | Some a =>
      bool_decide (name ∈ a)
      && bool_decide
           (Forall (λ k, k ∈ a) (MetroData.interchanges metroData).*1)
  | None => false
  end.

(** The route of the first scenario of the estimation. *)
Definition danapurToNewISBT : Route.t :=
  Route.mk [ "Danapur Cantonment"; "Saguna More"; "RPS More"; "Patliputra";
             "Rukanpura"; "Raja Bazar"; "Patna Zoo"; "Vikas Bhawan";
             "Vidyut Bhawan"; "Patna Junction"; "Mithapur";
             "Ramkrishna Nagar"; "Jaganpur"; "Khemni Chak"; "Bhoothnath";
             "Zero Mile"; "New ISBT" ]
           1 (Some "Khemni Chak").

(** Routes through the same interchange whose paths read in opposite
    directions. *)
Definition mirrored (r1 r2 : option Route.t) : Prop :=
  match r1, r2 with
  | None, None => True
  | Some a, Some b =>
      Route.path b = reverse (Route.path a)
      ∧ Route.interchanges b = Route.interchanges a
      ∧ Route.changeAt b = Route.changeAt a
  | _, _ => False
  end.

(** Whether the route of a query, if any, repeats no station. *)
Definition routeNoDup (a b : string) : bool :=
  match findRoute a b with
  | Normal (Some r) => bool_decide (NoDup (Route.path r))
  | _ => true
  end.

(** A line array is sound when it repeats no station and lists registered
    stations only. *)
Definition lineSound (a : list string) : bool :=
  bool_decide (NoDup a)
  && bool_decide (Forall (registered metroData) a).

(** A network in which station "C" is registered on line 1 but missing
    from the array of that line. *)
Definition strayStation : MetroData.t :=
  MetroData.mk
    (list_to_map [ ("A", mkStation 1 false); ("B", mkStation 1 false);
                   ("C", mkStation 1 false) ])
    (list_to_map [ (1, [ "A"; "B" ]) ])
    [].

(** * Array primitives *)

Section arrays.
Implicit Types (a : list string) (x : string) (i j : Z).

Lemma indexOf_found a x :
  x ∈ a → ∃ n : nat, indexOf a x = Z.of_nat n ∧ a !! n = Some x.
Proof.
  intros Hx. unfold indexOf.
  destruct (list_find (λ y, y = x) a) as [[n y]|] eqn:Hf.
  - apply list_find_Some in Hf as (Hn & -> & _). eauto.
  - apply list_find_None in Hf.
    rewrite Forall_forall in Hf. by destruct (Hf x Hx).
Qed.

Lemma indexOf_absent a x : indexOf a x = -1 ↔ x ∉ a.
Proof.
  unfold indexOf.
  destruct (list_find (λ y, y = x) a) as [[n y]|] eqn:Hf.
  - apply list_find_Some in Hf as (Hn & -> & _).
    split; [lia|]. intros []. by eapply list_elem_of_lookup_2.
  - apply list_find_None in Hf. rewrite Forall_forall in Hf.
    split; [|done]. intros _ Hx. by apply (Hf x Hx).
Qed.

Lemma indexOf_present a x : indexOf a x ≠ -1 → x ∈ a.
Proof.
  intros H. destruct (decide (x ∈ a)) as [|Hn]; [done|].
  by apply indexOf_absent in Hn.
Qed.

Lemma slice_in_range a (m n : nat) :
  (m ≤ n ≤ length a)%nat →
  slice a (Z.of_nat m) (Z.of_nat n) = take (n - m) (drop m a).
Proof.
  intros H. unfold slice, relativeIndex.
  repeat case_bool_decide; try lia.
  f_equal; [lia|]. f_equal. lia.
Qed.

Lemma slice_length_le_1 a i : (length (slice a i (i + 1)) ≤ 1)%nat.
Proof.
  unfold slice, relativeIndex. rewrite length_take.
  repeat case_bool_decide; lia.
Qed.

Lemma sliceFrom_1 a : sliceFrom a 1 = drop 1 a.
Proof.
  unfold sliceFrom, slice, relativeIndex.
  case_bool_decide; [lia|]. case_bool_decide; [lia|].
  destruct a as [|y a]; [done|].
  rewrite take_ge; [|rewrite length_drop; simpl length; lia].
  f_equal. simpl length. lia.
Qed.

(** Swapping the two ends of a leg reverses it, whatever the indices. *)
Lemma spanPath_reverse a i j : spanPath a i j = reverse (spanPath a j i).
Proof.
  unfold spanPath.
  destruct (Z.lt_trichotomy i j) as [Hlt|[->|Hgt]].
  - rewrite (bool_decide_eq_false_2 (i > j)) by lia.
    rewrite (bool_decide_eq_true_2 (j > i)) by lia.
    by rewrite reverse_involutive, Z.min_comm, Z.max_comm.
  - rewrite (bool_decide_eq_false_2 (j > j)) by lia.
    rewrite Z.min_id, Z.max_id.
    pose proof (slice_length_le_1 a j) as Hlen.
    destruct (slice a j (j + 1)) as [|y [|z l]]; [done|done|].
    simpl in Hlen. lia.
  - rewrite (bool_decide_eq_true_2 (i > j)) by lia.
    rewrite (bool_decide_eq_false_2 (j > i)) by lia.
    by rewrite Z.min_comm, Z.max_comm.
Qed.

Lemma spanPath_length a (m n : nat) :
  (m < length a)%nat → (n < length a)%nat →
  length (spanPath a (Z.of_nat m) (Z.of_nat n))
  = S (Nat.max m n - Nat.min m n).
Proof.
  intros Hm Hn. unfold spanPath.
  replace (Z.min (Z.of_nat m) (Z.of_nat n))
    with (Z.of_nat (Nat.min m n)) by lia.
  replace (Z.max (Z.of_nat m) (Z.of_nat n) + 1)
    with (Z.of_nat (S (Nat.max m n))) by lia.
  rewrite slice_in_range by lia.
  case_bool_decide; rewrite ?length_reverse, length_take, length_drop; lia.
Qed.

Lemma spanPath_same a (n : nat) x :
  a !! n = Some x → spanPath a (Z.of_nat n) (Z.of_nat n) = [x].
Proof.
  intros Hn. unfold spanPath.
  rewrite bool_decide_eq_false_2 by lia.
  rewrite Z.min_id, Z.max_id.
  replace (Z.of_nat n + 1) with (Z.of_nat (S n)) by lia.
  rewrite slice_in_range by (apply lookup_lt_Some in Hn; lia).
  replace (S n - n)%nat with 1%nat by lia.
  by rewrite (drop_S _ _ _ Hn).
Qed.

End arrays.

(** * The loop of the cross-line case *)

Section selection.
Variable cand : string → option (list string).
Implicit Types (keys : list string) (best : option Route.t).

Lemma pickBest_cons k keys best :
  pickBest cand (k :: keys) best
  = pickBest cand keys
      (match cand k with
       | None => best
       | Some fullPath => keepBest best fullPath k
       end).
Proof. reflexivity. Qed.

(** A route that no later candidate beats strictly survives the loop. *)
Lemma pickBest_keeps keys b :
  (∀ k q, k ∈ keys → cand k = Some q →
          (length (Route.path b) ≤ length q)%nat) →
  pickBest cand keys (Some b) = Some b.
Proof.
  induction keys as [|k keys IH]; intros Hall; [done|].
  rewrite pickBest_cons.
  destruct (cand k) as [q|] eqn:Hk.
  - assert (length (Route.path b) ≤ length q)%nat as Hle
      by (eapply Hall; [left|done]).
    simpl. rewrite bool_decide_eq_false_2 by lia.
    apply IH. intros k' q' Hin. apply Hall. by right.
  - apply IH. intros k' q' Hin. apply Hall. by right.
Qed.

(** The candidate at position [i] wins when every candidate is at least as
    long and every earlier one is strictly longer. *)
Lemma pickBest_first_shortest keys best (i : nat) x p :
  keys !! i = Some x →
  cand x = Some p →
  (∀ (j : nat) y q, keys !! j = Some y → cand y = Some q →
     (length p ≤ length q)%nat
     ∧ ((j < i)%nat → (length p < length q)%nat)) →
  match best with
  | None => True
  | Some b => (length p < length (Route.path b))%nat
  end →
  pickBest cand keys best = Some (Route.mk p 1 (Some x)).
Proof.
  revert best i.
  induction keys as [|k keys IH]; intros best i Hi Hx Hmin Hbest; [done|].
  rewrite pickBest_cons.
  destruct i as [|i]; simpl in Hi.
  - injection Hi as ->. rewrite Hx.
    assert (keepBest best p x = Some (Route.mk p 1 (Some x))) as ->.
    { destruct best as [b|]; simpl; [|done].
      by rewrite bool_decide_eq_true_2. }
    apply pickBest_keeps. intros k q Hk Hq. simpl.
    apply list_elem_of_lookup in Hk as [j Hj].
    by apply (Hmin (S j) k q).
  - apply (IH _ i); [done|done| |].
    + intros j y q Hj Hy.
      destruct (Hmin (S j) y q Hj Hy) as [Hle Hlt].
      split; [done|]. intros. apply Hlt. lia.
    + destruct (cand k) as [q|] eqn:Hk; [|done].
      assert (length p < length q)%nat as Hlt
        by (apply (Hmin 0%nat k q); [done|done|lia]).
      destruct best as [b|]; simpl; [|done].
      by case_bool_decide.
Qed.

(** When no key yields a candidate the accumulator is returned as is. *)
Lemma pickBest_no_candidate keys best :
  (∀ k, k ∈ keys → cand k = None) → pickBest cand keys best = best.
Proof.
  revert best. induction keys as [|k keys IH]; intros best Hall; [done|].
  rewrite pickBest_cons, (Hall k) by left.
  apply IH. intros k' Hk'. apply Hall. by right.
Qed.

Lemma keepBest_viaInterchange best p k :
  viaInterchange best → viaInterchange (keepBest best p k).
Proof.
  intros Hb r. destruct best as [b|]; simpl.
  - case_bool_decide; [|by apply Hb].
    intros [= <-]. simpl. eauto.
  - intros [= <-]. simpl. eauto.
Qed.

Lemma pickBest_viaInterchange keys best :
  viaInterchange best → viaInterchange (pickBest cand keys best).
Proof.
  revert best. induction keys as [|k keys IH]; intros best Hb; [done|].
  rewrite pickBest_cons. apply IH.
  destruct (cand k); [by apply keepBest_viaInterchange|done].
Qed.

Lemma keepBest_is_Some best p k : is_Some (keepBest best p k).
Proof. destruct best; simpl; [case_bool_decide|]; eauto. Qed.

Lemma pickBest_is_Some_acc keys best :
  is_Some best → is_Some (pickBest cand keys best).
Proof.
  revert best. induction keys as [|k keys IH]; intros best Hb; [done|].
  rewrite pickBest_cons. apply IH.
  destruct (cand k); [apply keepBest_is_Some|done].
Qed.

(** One bridging interchange is enough for the loop to end with a
    route. *)
Lemma pickBest_is_Some keys best k :
  k ∈ keys → is_Some (cand k) → is_Some (pickBest cand keys best).
Proof.
  revert best. induction keys as [|k' keys IH]; intros best Hk Hc.
  - by apply elem_of_nil in Hk.
  - rewrite pickBest_cons.
    apply elem_of_cons in Hk as [<-|Hk]; [|by apply IH].
    destruct Hc as [p ->].
    apply pickBest_is_Some_acc, keepBest_is_Some.
Qed.

End selection.

(** Two runs of the loop whose candidates agree in length key by key end
    with routes of the same shape. *)
Lemma pickBest_sameShape (cand1 cand2 : string → option (list string))
    (keys : list string) (best1 best2 : option Route.t) :
  (∀ k, k ∈ keys → length <$> cand1 k = length <$> cand2 k) →
  sameShape best1 best2 →
  sameShape (pickBest cand1 keys best1) (pickBest cand2 keys best2).
Proof.
  revert best1 best2.
  induction keys as [|k keys IH]; intros best1 best2 Hall Hb; [done|].
  rewrite !pickBest_cons. apply IH.
  { intros k' Hk'. apply Hall. by right. }
  specialize (Hall k ltac:(left)).
  destruct (cand1 k) as [p|], (cand2 k) as [q|]; simplify_eq/=; [|done].
  destruct best1 as [a|], best2 as [b|]; simpl in *; try done.
  destruct Hb as (Hlen & ? & ?).
  rewrite Hall, Hlen.
  case_bool_decide; simpl; auto.
Qed.

(** * findRoute, branch by branch *)

Section resolver.
Variable md : MetroData.t.
Implicit Types (startStation endStation : string) (n : StationNode).

Lemma getStation_own name n :
  MetroData.stations md !! name = Some n → getStation md name = OwnNode n.
Proof. unfold getStation. by intros ->. Qed.

Lemma getStation_unknown name :
  unknownName md name → getStation md name = Undefined.
Proof.
  intros [Hnone Hproto]. unfold getStation. rewrite Hnone.
  by rewrite bool_decide_eq_false_2.
Qed.

(** The guard at the top of [findRoute]. *)
Lemma findRouteIn_unknown startStation endStation :
  unknownName md startStation ∨ unknownName md endStation →
  findRouteIn md startStation endStation = Normal None.
Proof.
  intros [H|H]; apply getStation_unknown in H; unfold findRouteIn;
    rewrite H; simpl; [done|].
  by rewrite orb_true_r.
Qed.

(** Case 1 of the source. *)
Lemma findRouteIn_same_line startStation endStation n1 n2 a :
  MetroData.stations md !! startStation = Some n1 →
  MetroData.stations md !! endStation = Some n2 →
  line n1 = line n2 →
  MetroData.lines md !! line n1 = Some a →
  findRouteIn md startStation endStation
  = Normal (Some (Route.mk (spanPath a (indexOf a startStation)
                                       (indexOf a endStation)) 0 None)).
Proof.
  intros H1 H2 Hline Ha. unfold findRouteIn.
  rewrite (getStation_own _ _ H1), (getStation_own _ _ H2). simpl.
  rewrite bool_decide_eq_true_2 by congruence.
  unfold lineArray. simpl. by rewrite Ha.
Qed.

Lemma candidatePath_bridge s e startStation endStation k line1 line2 :
  getLine md (lineOf s) = Some line1 →
  getLine md (lineOf e) = Some line2 →
  candidatePath md s e startStation endStation k
  = Normal (bridge line1 line2 startStation endStation k).
Proof.
  intros H1 H2. unfold candidatePath, bridge, lineArray.
  rewrite H1. simpl. case_bool_decide; [done|].
  rewrite H2. simpl. by case_bool_decide.
Qed.

Lemma loopBody_bridge s e startStation endStation k line1 line2 best :
  getLine md (lineOf s) = Some line1 →
  getLine md (lineOf e) = Some line2 →
  loopBody md s e startStation endStation best k
  = Normal (match bridge line1 line2 startStation endStation k with
            | None => best
            | Some fullPath => keepBest best fullPath k
            end).
Proof.
  intros H1 H2. unfold loopBody.
  rewrite (candidatePath_bridge _ _ _ _ _ _ _ H1 H2).
  by destruct (bridge line1 line2 startStation endStation k).
Qed.

Lemma forIn_loopBody s e startStation endStation line1 line2 keys best :
  getLine md (lineOf s) = Some line1 →
  getLine md (lineOf e) = Some line2 →
  forIn (loopBody md s e startStation endStation) keys best
  = Normal (pickBest (bridge line1 line2 startStation endStation)
                     keys best).
Proof.
  intros H1 H2. revert best.
  induction keys as [|k keys IH]; intros best; [done|].
  rewrite pickBest_cons, <- IH. cbn [forIn].
  by rewrite (loopBody_bridge _ _ _ _ _ _ _ _ H1 H2).
Qed.

(** Case 2 of the source. *)
Lemma findRouteIn_cross_line startStation endStation n1 n2 line1 line2 :
  MetroData.stations md !! startStation = Some n1 →
  MetroData.stations md !! endStation = Some n2 →
  line n1 ≠ line n2 →
  MetroData.lines md !! line n1 = Some line1 →
  MetroData.lines md !! line n2 = Some line2 →
  findRouteIn md startStation endStation
  = Normal (pickBest (bridge line1 line2 startStation endStation)
                     (MetroData.interchanges md).*1 None).
Proof.
  intros H1 H2 Hline Hl1 Hl2. unfold findRouteIn.
  rewrite (getStation_own _ _ H1), (getStation_own _ _ H2). simpl.
  rewrite bool_decide_eq_false_2 by congruence.
  by apply forIn_loopBody.
Qed.

End resolver.

(** The two directions of a cross-line query build candidates of the same
    length through every interchange, provided both endpoints lie on
    their lines. *)
Lemma bridge_swap_length line1 line2 startStation endStation k :
  startStation ∈ line1 → endStation ∈ line2 →
  length <$> bridge line1 line2 startStation endStation k
  = length <$> bridge line2 line1 endStation startStation k.
Proof.
  intros Hs He. unfold bridge.
  destruct (decide (k ∈ line1)) as [Hk1|Hk1]; cycle 1.
  { apply indexOf_absent in Hk1. rewrite Hk1.
    rewrite bool_decide_eq_true_2 by done.
    by case_bool_decide. }
  destruct (decide (k ∈ line2)) as [Hk2|Hk2]; cycle 1.
  { apply indexOf_absent in Hk2. rewrite Hk2.
    rewrite (bool_decide_eq_true_2 (-1 = -1)) by done.
    by case_bool_decide. }
  destruct (indexOf_found _ _ Hs) as (s1 & -> & Hs1).
  destruct (indexOf_found _ _ He) as (e2 & -> & He2).
  destruct (indexOf_found _ _ Hk1) as (k1 & -> & Hk1').
  destruct (indexOf_found _ _ Hk2) as (k2 & -> & Hk2').
  rewrite !bool_decide_eq_false_2 by lia. simpl. f_equal.
  apply lookup_lt_Some in Hs1, He2, Hk1', Hk2'.
  rewrite !length_app, !sliceFrom_1, !length_drop, !spanPath_length by done.
  lia.
Qed.

Lemma bridge_is_Some line1 line2 startStation endStation k :
  k ∈ line1 → k ∈ line2 →
  is_Some (bridge line1 line2 startStation endStation k).
Proof.
  intros H1 H2. unfold bridge.
  rewrite !bool_decide_eq_false_2;
    [eauto|by rewrite indexOf_absent; intros []..].
Qed.

Lemma bridge_None line1 line2 startStation endStation k :
  k ∉ line1 ∨ k ∉ line2 →
  bridge line1 line2 startStation endStation k = None.
Proof.
  unfold bridge. intros [H|H]; apply indexOf_absent in H; rewrite H.
  - by rewrite bool_decide_eq_true_2.
  - case_bool_decide; [done|]. by rewrite bool_decide_eq_true_2.
Qed.

(** * The configured network *)

Lemma metroData_onHomeLine :
  map_Forall (λ name n, onHomeLine name n = true)
    (MetroData.stations metroData).
Proof. refine (bool_decide_unpack _ _). by vm_compute. Qed.

Lemma metroData_home name n :
  MetroData.stations metroData !! name = Some n →
  ∃ a, MetroData.lines metroData !! line n = Some a
       ∧ name ∈ a
       ∧ ∀ k, k ∈ (MetroData.interchanges metroData).*1 → k ∈ a.
Proof.
  intros Hn. pose proof (metroData_onHomeLine name n Hn) as H.
  unfold onHomeLine in H.
  destruct (MetroData.lines metroData !! line n) as [a|]; [|done].
  apply andb_prop in H as [H1 H2].
  apply bool_decide_eq_true in H1, H2.
  exists a. split_and!; [done|done|]. by apply Forall_forall.
Qed.

(** Every pair of registered stations gets a route. *)
Lemma findRoute_registered a b :
  registered metroData a → registered metroData b →
  ∃ r, findRoute a b = Normal (Some r).
Proof.
  intros [n1 H1] [n2 H2].
  destruct (metroData_home _ _ H1) as (l1 & Hl1 & Ha & Hk1).
  destruct (metroData_home _ _ H2) as (l2 & Hl2 & Hb & Hk2).
  unfold findRoute.
  destruct (decide (line n1 = line n2)) as [Heq|Hne].
  - rewrite (findRouteIn_same_line _ _ _ _ _ _ H1 H2 Heq Hl1). eauto.
  - rewrite (findRouteIn_cross_line _ _ _ _ _ _ _ H1 H2 Hne Hl1 Hl2).
    destruct (pickBest_is_Some (bridge l1 l2 a b)
                (MetroData.interchanges metroData).*1 None "Patna Junction")
      as [r Hr].
    + by left.
    + apply bridge_is_Some; [apply Hk1|apply Hk2]; by left.
    + rewrite Hr. eauto.
Qed.

(** Conversely [null] is returned only when a name is not registered. *)
Lemma findRoute_null_unregistered a b :
  findRoute a b = Normal None →
  ¬ registered metroData a ∨ ¬ registered metroData b.
Proof.
  intros Hnull.
  destruct (decide (registered metroData a)) as [Ha|]; [|by left].
  destruct (decide (registered metroData b)) as [Hb|]; [|by right].
  destruct (findRoute_registered a b Ha Hb) as [r Hr]. congruence.
Qed.

(** * Properties of the resolver *)

(** C1.  [findRoute("Danapur Cantonment", "New ISBT")]: the two stations
    have different home lines, so the query runs the interchange loop;
    the candidate through "Khemni Chak" has 17 stations against 21 through
    "Patna Junction", and the route returned is that candidate, with one
    interchange and [changeAt] "Khemni Chak". *)
Theorem danapur_to_new_isbt_via_khemni_chak :
  let startNode := getStation metroData "Danapur Cantonment" in
  let endNode := getStation metroData "New ISBT" in
  lineOf startNode ≠ lineOf endNode
  ∧ ∃ viaKhemniChak viaPatnaJunction,
      candidatePath metroData startNode endNode
        "Danapur Cantonment" "New ISBT" "Khemni Chak"
      = Normal (Some viaKhemniChak)
      ∧ candidatePath metroData startNode endNode
          "Danapur Cantonment" "New ISBT" "Patna Junction"
        = Normal (Some viaPatnaJunction)
      ∧ length viaKhemniChak = 17%nat
      ∧ length viaPatnaJunction = 21%nat
      ∧ findRoute "Danapur Cantonment" "New ISBT"
        = Normal (Some (Route.mk viaKhemniChak 1 (Some "Khemni Chak")))
      ∧ viaKhemniChak
        = [ "Danapur Cantonment"; "Saguna More"; "RPS More"; "Patliputra";
            "Rukanpura"; "Raja Bazar"; "Patna Zoo"; "Vikas Bhawan";
            "Vidyut Bhawan"; "Patna Junction"; "Mithapur";
            "Ramkrishna Nagar"; "Jaganpur"; "Khemni Chak"; "Bhoothnath";
            "Zero Mile"; "New ISBT" ].
Proof.
  split; [by vm_compute|].
  eexists _, _. split_and!; by vm_compute.
Qed.

(** C2.  A name that is not in the station registry is not always
    reported as an invalid station.  "toString" and "valueOf" are not
    registered, but the guard reads the functions every object inherits
    under these names and lets them pass; next to a registered station, or
    to each other, [findRoute] then throws a [TypeError]: it returns
    neither [null] nor a path.  A name the lookup reads as [undefined]
    is answered with [null], as the guard intends. *)
Theorem unregistered_name_can_throw :
  ¬ registered metroData "toString"
  ∧ ¬ registered metroData "valueOf"
  ∧ registered metroData "Patna Junction"
  ∧ getStation metroData "toString" = Inherited
  ∧ findRoute "toString" "Patna Junction" = Throw TypeError
  ∧ findRoute "Patna Junction" "toString" = Throw TypeError
  ∧ findRoute "toString" "valueOf" = Throw TypeError
  ∧ findRoute "Nonexistent Station" "New ISBT" = Normal None.
Proof.
  split_and!; try by vm_compute.
  - intros [n Hn]. by vm_compute in Hn.
  - intros [n Hn]. by vm_compute in Hn.
  - exists (mkStation 1 true). by vm_compute.
Qed.

(** C3.  For every registered station [S], [findRoute(S, S)] returns the
    one-element path [S] with no interchange, hence zero stations
    travelled. *)
Theorem same_station_single_element S :
  registered metroData S →
  ∃ r, findRoute S S = Normal (Some r)
       ∧ Route.path r = [ S ]
       ∧ Route.interchanges r = 0
       ∧ Route.changeAt r = None
       ∧ numberOfStations r = 0.
Proof.
  intros [n Hn].
  destruct (metroData_home _ _ Hn) as (a & Ha & HS & _).
  destruct (indexOf_found _ _ HS) as (i & Hi & Hlook).
  unfold findRoute.
  rewrite (findRouteIn_same_line _ _ _ _ _ _ Hn Hn eq_refl Ha).
  rewrite Hi, (spanPath_same _ _ _ Hlook).
  eexists. split; [done|]. by split_and!.
Qed.

Lemma same_station_single_element_witness :
  ∃ r, findRoute "Patna Junction" "Patna Junction" = Normal (Some r)
       ∧ Route.path r = [ "Patna Junction" ]
       ∧ Route.interchanges r = 0
       ∧ Route.changeAt r = None
       ∧ numberOfStations r = 0.
Proof.
  apply (same_station_single_element "Patna Junction").
  exists (mkStation 1 true). by vm_compute.
Defined.

(** C4.  For two registered stations with the same home line, the path of
    [findRoute(A, B)] is the reverse of the path of [findRoute(B, A)], and
    both routes travel the same number of stations. *)
Theorem same_line_paths_are_reverses a b :
  registered metroData a → registered metroData b →
  homeLine metroData a = homeLine metroData b →
  ∃ r1 r2, findRoute a b = Normal (Some r1)
           ∧ findRoute b a = Normal (Some r2)
           ∧ Route.path r1 = reverse (Route.path r2)
           ∧ Route.interchanges r1 = 0
           ∧ Route.interchanges r2 = 0
           ∧ numberOfStations r1 = numberOfStations r2.
Proof.
  intros [n1 H1] [n2 H2]. unfold homeLine. rewrite H1, H2. intros [= Hline].
  destruct (metroData_home _ _ H1) as (l & Hl & _).
  unfold findRoute.
  rewrite (findRouteIn_same_line _ _ _ _ _ _ H1 H2 Hline Hl).
  rewrite Hline in Hl.
  rewrite (findRouteIn_same_line _ _ _ _ _ _ H2 H1 (eq_sym Hline) Hl).
  eexists _, _. split_and!; try done.
  - apply spanPath_reverse.
  - unfold numberOfStations. simpl.
    by rewrite (spanPath_reverse l (indexOf l a)), length_reverse.
Qed.

Lemma same_line_paths_are_reverses_witness :
  ∃ r1 r2, findRoute "PMCH" "Akashvani" = Normal (Some r1)
           ∧ findRoute "Akashvani" "PMCH" = Normal (Some r2)
           ∧ Route.path r1 = reverse (Route.path r2)
           ∧ Route.interchanges r1 = 0
           ∧ Route.interchanges r2 = 0
           ∧ numberOfStations r1 = numberOfStations r2.
Proof.
  apply (same_line_paths_are_reverses "PMCH" "Akashvani").
  - exists (mkStation 2 false). by vm_compute.
  - exists (mkStation 2 false). by vm_compute.
  - by vm_compute.
Defined.

(** C5.  For every pair of registered stations, [findRoute(A, B)] and
    [findRoute(B, A)] both return a route, with the same interchange count
    and the same number of stations on the path. *)
Theorem both_directions_same_size a b :
  registered metroData a → registered metroData b →
  ∃ r1 r2, findRoute a b = Normal (Some r1)
           ∧ findRoute b a = Normal (Some r2)
           ∧ Route.interchanges r1 = Route.interchanges r2
           ∧ length (Route.path r1) = length (Route.path r2).
Proof.
  intros Ha Hb.
  destruct (findRoute_registered a b Ha Hb) as [r1 Hr1].
  destruct (findRoute_registered b a Hb Ha) as [r2 Hr2].
  exists r1, r2. split; [done|]. split; [done|].
  destruct Ha as [n1 H1], Hb as [n2 H2].
  destruct (metroData_home _ _ H1) as (l1 & Hl1 & Hin1 & _).
  destruct (metroData_home _ _ H2) as (l2 & Hl2 & Hin2 & _).
  unfold findRoute in *.
  destruct (decide (line n1 = line n2)) as [Heq|Hne].
  - rewrite (findRouteIn_same_line _ _ _ _ _ _ H1 H2 Heq Hl1) in Hr1.
    rewrite (findRouteIn_same_line _ _ _ _ _ _ H2 H1 (eq_sym Heq) Hl2) in Hr2.
    assert (l1 = l2) as <- by (rewrite Heq in Hl1; congruence).
    injection Hr1 as <-. injection Hr2 as <-.
    cbn [Route.path Route.interchanges]. split; [done|].
    by rewrite (spanPath_reverse l1 (indexOf l1 a)), length_reverse.
  - rewrite (findRouteIn_cross_line _ _ _ _ _ _ _ H1 H2 Hne Hl1 Hl2) in Hr1.
    rewrite (findRouteIn_cross_line _ _ _ _ _ _ _ H2 H1 (not_eq_sym Hne)
               Hl2 Hl1) in Hr2.
    pose proof (pickBest_sameShape (bridge l1 l2 a b) (bridge l2 l1 b a)
                  (MetroData.interchanges metroData).*1 None None) as Hsame.
    replace (pickBest (bridge l1 l2 a b) _ None) with (Some r1) in Hsame
      by congruence.
    replace (pickBest (bridge l2 l1 b a) _ None) with (Some r2) in Hsame
      by congruence.
    destruct Hsame as (Hlen & Hic & _); [|exact I|done].
    intros k _. by apply bridge_swap_length.
Qed.

Lemma both_directions_same_size_witness :
  ∃ r1 r2, findRoute "Danapur Cantonment" "New ISBT" = Normal (Some r1)
           ∧ findRoute "New ISBT" "Danapur Cantonment" = Normal (Some r2)
           ∧ Route.interchanges r1 = Route.interchanges r2
           ∧ length (Route.path r1) = length (Route.path r2).
Proof.
  apply (both_directions_same_size "Danapur Cantonment" "New ISBT").
  - exists (mkStation 1 false). by vm_compute.
  - exists (mkStation 2 false). by vm_compute.
Defined.

(** C6.  In the cross-line case the route returned is the candidate of
    the first interchange key, in enumeration order, whose full path is
    shortest: if the candidate through the key at position [i] is no
    longer than any other candidate and strictly shorter than every
    candidate of an earlier key, [findRoute] returns it. *)
Theorem cross_line_first_shortest md a b n1 n2 line1 line2 (i : nat) x p :
  MetroData.stations md !! a = Some n1 →
  MetroData.stations md !! b = Some n2 →
  line n1 ≠ line n2 →
  MetroData.lines md !! line n1 = Some line1 →
  MetroData.lines md !! line n2 = Some line2 →
  (MetroData.interchanges md).*1 !! i = Some x →
  candidatePath md (OwnNode n1) (OwnNode n2) a b x = Normal (Some p) →
  (∀ (j : nat) y q,
     (MetroData.interchanges md).*1 !! j = Some y →
     candidatePath md (OwnNode n1) (OwnNode n2) a b y = Normal (Some q) →
     (length p ≤ length q)%nat
     ∧ ((j < i)%nat → (length p < length q)%nat)) →
  findRouteIn md a b = Normal (Some (Route.mk p 1 (Some x))).
Proof.
  intros H1 H2 Hne Hl1 Hl2 Hi Hp Hmin.
  assert (∀ k, candidatePath md (OwnNode n1) (OwnNode n2) a b k
               = Normal (bridge line1 line2 a b k)) as Hcand
    by (intros k; by apply candidatePath_bridge).
  rewrite (findRouteIn_cross_line _ _ _ _ _ _ _ H1 H2 Hne Hl1 Hl2).
  f_equal. apply (pickBest_first_shortest _ _ _ i); [done| | |done].
  - rewrite Hcand in Hp. congruence.
  - intros j y q Hj Hq. apply (Hmin j y q Hj). rewrite Hcand. by f_equal.
Qed.

(** With equal candidates (seven stations through either interchange) the
    first key, "Patna Junction", is kept. *)
Lemma cross_line_first_shortest_witness :
  candidatePath metroData (OwnNode (mkStation 1 false))
    (OwnNode (mkStation 2 false)) "Ramkrishna Nagar" "Patna University"
    "Khemni Chak"
  = Normal (Some [ "Ramkrishna Nagar"; "Jaganpur"; "Khemni Chak";
                   "Malahi Pakri"; "Rajendra Nagar"; "Moin Ul Haq Stadium";
                   "Patna University" ])
  ∧ findRoute "Ramkrishna Nagar" "Patna University"
    = Normal (Some (Route.mk
                      [ "Ramkrishna Nagar"; "Mithapur"; "Patna Junction";
                        "Akashvani"; "Gandhi Maidan"; "PMCH";
                        "Patna University" ]
                      1 (Some "Patna Junction"))).
Proof.
  split; [by vm_compute|].
  eapply (cross_line_first_shortest metroData "Ramkrishna Nagar"
            "Patna University" (mkStation 1 false) (mkStation 2 false)
            _ _ 0%nat "Patna Junction");
    [by vm_compute..|].
  intros [|[|j]] y q Hj Hq; vm_compute in Hj; [..|done];
    injection Hj as <-; vm_compute in Hq; injection Hq as <-;
    simpl; lia.
Defined.

(** * Estimation in the handler *)

(** No station is registered under the empty name, so a query that
    [findRoute] resolves passes the handler's parameter check. *)
Lemma findRoute_empty_name name :
  findRoute EmptyString name = Normal None
  ∧ findRoute name EmptyString = Normal None.
Proof.
  assert (unknownName metroData EmptyString) as Hempty.
  { split; [by vm_compute|]. refine (bool_decide_unpack _ _). by vm_compute. }
  split; apply findRouteIn_unknown; auto.
Qed.

(** C7.  For every route the resolver returns, with a path of [p]
    stations and [k] interchanges, the handler answers with
    [numberOfStations = p - 1], an estimated time of
    [(p - 1) * 2 + k * 5] and an estimated price of [(p - 1) * 5]. *)
Theorem estimates_are_linear from to r :
  findRoute from to = Normal (Some r) →
  ∃ resp,
    apiRoute (Some from) (Some to) = Normal (Json resp)
    ∧ Response.route resp = Route.path r
    ∧ Response.numberOfInterchanges resp = Route.interchanges r
    ∧ Response.numberOfStations resp = Z.of_nat (length (Route.path r)) - 1
    ∧ Response.estimatedTimeMinutes resp
      = (Z.of_nat (length (Route.path r)) - 1) * 2 + Route.interchanges r * 5
    ∧ Response.estimatedPriceINR resp
      = (Z.of_nat (length (Route.path r)) - 1) * 5.
Proof.
  intros Hr.
  assert (from ≠ EmptyString) as Hfrom.
  { intros ->. destruct (findRoute_empty_name to) as [H _]. congruence. }
  assert (to ≠ EmptyString) as Hto.
  { intros ->. destruct (findRoute_empty_name from) as [_ H]. congruence. }
  unfold apiRoute, apiRouteIn, missing.
  rewrite !bool_decide_eq_false_2 by done. cbn [orb].
  unfold findRoute in Hr. rewrite Hr. cbn [mbind completion_bind].
  eexists. split; [done|]. by split_and!.
Qed.

Lemma estimates_are_linear_witness :
  ∃ resp,
    apiRoute (Some "Danapur Cantonment") (Some "New ISBT")
    = Normal (Json resp)
    ∧ Response.route resp = Route.path danapurToNewISBT
    ∧ Response.numberOfInterchanges resp = 1
    ∧ Response.numberOfStations resp = 17 - 1
    ∧ Response.estimatedTimeMinutes resp = (17 - 1) * 2 + 1 * 5
    ∧ Response.estimatedPriceINR resp = (17 - 1) * 5.
Proof.
  apply (estimates_are_linear "Danapur Cantonment" "New ISBT"
           danapurToNewISBT).
  by vm_compute.
Defined.

(** * Remaining scenarios *)

(** C8.  [findRoute("Danapur Cantonment", "Khemni Chak")]: both stations
    have home line 1, and the path is the whole of line 1, fourteen
    stations in declared order, with no interchange. *)
Theorem danapur_to_khemni_chak_is_line_1 :
  homeLine metroData "Danapur Cantonment" = Some 1
  ∧ homeLine metroData "Khemni Chak" = Some 1
  ∧ ∃ line1,
      MetroData.lines metroData !! 1 = Some line1
      ∧ length line1 = 14%nat
      ∧ findRoute "Danapur Cantonment" "Khemni Chak"
        = Normal (Some (Route.mk line1 0 None))
      ∧ line1
        = [ "Danapur Cantonment"; "Saguna More"; "RPS More"; "Patliputra";
            "Rukanpura"; "Raja Bazar"; "Patna Zoo"; "Vikas Bhawan";
            "Vidyut Bhawan"; "Patna Junction"; "Mithapur";
            "Ramkrishna Nagar"; "Jaganpur"; "Khemni Chak" ].
Proof.
  split; [by vm_compute|]. split; [by vm_compute|].
  eexists. split_and!; by vm_compute.
Qed.

(** C9.  Two registered stations with different home lines always get a
    route with one interchange and a [changeAt] station, never a
    zero-change route, also when one of them is an interchange that lies
    on the other's line. *)
Theorem different_home_lines_one_interchange a b n1 n2 :
  MetroData.stations metroData !! a = Some n1 →
  MetroData.stations metroData !! b = Some n2 →
  line n1 ≠ line n2 →
  ∃ r, findRoute a b = Normal (Some r)
       ∧ Route.interchanges r = 1
       ∧ is_Some (Route.changeAt r).
Proof.
  intros H1 H2 Hne.
  destruct (findRoute_registered a b) as [r Hr]; [by eexists..|].
  exists r. split; [done|].
  destruct (metroData_home _ _ H1) as (l1 & Hl1 & _).
  destruct (metroData_home _ _ H2) as (l2 & Hl2 & _).
  unfold findRoute in Hr.
  rewrite (findRouteIn_cross_line _ _ _ _ _ _ _ H1 H2 Hne Hl1 Hl2) in Hr.
  apply (pickBest_viaInterchange (bridge l1 l2 a b)
           (MetroData.interchanges metroData).*1 None); [done|].
  congruence.
Qed.

(** "Khemni Chak" lies on line 2 next to "Bhoothnath", yet the query to
    "New ISBT" is answered as a change at "Khemni Chak". *)
Lemma different_home_lines_one_interchange_witness :
  (∃ line2, MetroData.lines metroData !! 2 = Some line2
            ∧ "Khemni Chak" ∈ line2 ∧ "New ISBT" ∈ line2)
  ∧ ∃ r, findRoute "Khemni Chak" "New ISBT" = Normal (Some r)
         ∧ Route.interchanges r = 1
         ∧ is_Some (Route.changeAt r).
Proof.
  split.
  - eexists. split; [by vm_compute|].
    split; refine (bool_decide_unpack _ _); by vm_compute.
  - apply (different_home_lines_one_interchange "Khemni Chak" "New ISBT"
             (mkStation 1 true) (mkStation 2 false)); by vm_compute.
Defined.

(** C10.  A name that is not registered but is inherited from
    [Object.prototype] passes the guard of [findRoute]; the value read
    has no [line], so the loop reads [lines[undefined]] and the call is
    abandoned by a [TypeError] instead of returning [null]. *)
Theorem inherited_name_is_not_rejected :
  ¬ registered metroData "constructor"
  ∧ registered metroData "New ISBT"
  ∧ getStation metroData "constructor" = Inherited
  ∧ findRoute "constructor" "New ISBT" = Throw TypeError
  ∧ apiRoute (Some "constructor") (Some "New ISBT") = Throw TypeError.
Proof.
  split_and!; try by vm_compute.
  - intros [n Hn]. by vm_compute in Hn.
  - exists (mkStation 2 false). by vm_compute.
Qed.

(** * Legs, station by station *)

Section legs.
Implicit Types (a : list string) (x y : string).

Lemma spanPath_forward a (m n : nat) :
  (m ≤ n < length a)%nat →
  spanPath a (Z.of_nat m) (Z.of_nat n) = take (S (n - m)) (drop m a).
Proof.
  intros H. unfold spanPath.
  rewrite bool_decide_eq_false_2 by lia.
  rewrite Z.min_l, Z.max_r by lia.
  replace (Z.of_nat n + 1) with (Z.of_nat (S n)) by lia.
  rewrite slice_in_range by lia. f_equal. lia.
Qed.

(** Position [k] of a leg holds the station [k] steps from its first end
    towards its second end. *)
Lemma spanPath_lookup a (m n k : nat) :
  (m < length a)%nat → (n < length a)%nat →
  (k ≤ Nat.max m n - Nat.min m n)%nat →
  spanPath a (Z.of_nat m) (Z.of_nat n) !! k
  = a !! (if bool_decide (m ≤ n)%nat then m + k else m - k)%nat.
Proof.
  intros Hm Hn Hk. case_bool_decide as Hle.
  - rewrite spanPath_forward by lia.
    rewrite lookup_take_lt by lia. by rewrite lookup_drop.
  - rewrite spanPath_reverse, spanPath_forward by lia.
    rewrite reverse_lookup
      by (rewrite length_take, length_drop; lia).
    rewrite length_take, length_drop.
    rewrite lookup_take_lt by lia. rewrite lookup_drop. f_equal. lia.
Qed.

Lemma spanPath_first a (m n : nat) x :
  a !! m = Some x → (n < length a)%nat →
  ∃ t, spanPath a (Z.of_nat m) (Z.of_nat n) = x :: t.
Proof.
  intros Hx Hn. pose proof (lookup_lt_Some _ _ _ Hx) as Hm.
  pose proof (spanPath_lookup a m n 0 Hm Hn ltac:(lia)) as H0.
  replace (if bool_decide (m ≤ n)%nat then (m + 0)%nat else (m - 0)%nat)
    with m in H0 by (case_bool_decide; lia).
  rewrite Hx in H0.
  destruct (spanPath a (Z.of_nat m) (Z.of_nat n)) as [|z t]; [done|].
  injection H0 as ->. eauto.
Qed.

Lemma spanPath_final a (m n : nat) y :
  (m < length a)%nat → a !! n = Some y →
  ∃ t, spanPath a (Z.of_nat m) (Z.of_nat n) = t ++ [y].
Proof.
  intros Hm Hy. pose proof (lookup_lt_Some _ _ _ Hy) as Hn.
  destruct (spanPath_first a n m y Hy Hm) as [t Ht].
  exists (reverse t). by rewrite spanPath_reverse, Ht, reverse_cons.
Qed.

(** A leg only holds stations of its line, and repeats none when the line
    repeats none. *)
Lemma spanPath_sublist a i j :
  spanPath a i j `sublist_of` a ∨ reverse (spanPath a i j) `sublist_of` a.
Proof.
  assert (∀ s t, slice a s t `sublist_of` a) as Hslice.
  { intros s t. unfold slice.
    etrans; [apply sublist_take|apply sublist_drop]. }
  unfold spanPath. case_bool_decide.
  - right. rewrite reverse_involutive. apply Hslice.
  - left. apply Hslice.
Qed.

Lemma spanPath_elem_of a i j x : x ∈ spanPath a i j → x ∈ a.
Proof.
  intros Hx. destruct (spanPath_sublist a i j) as [H|H].
  - by apply (sublist_subseteq _ _ H).
  - apply (sublist_subseteq _ _ H). by apply elem_of_reverse.
Qed.

Lemma spanPath_NoDup a i j : NoDup a → NoDup (spanPath a i j).
Proof.
  intros Ha. destruct (spanPath_sublist a i j) as [H|H].
  - by eapply sublist_NoDup.
  - rewrite <- reverse_Permutation. by eapply sublist_NoDup.
Qed.

End legs.

(** * Candidates, station by station *)

Lemma bridge_Some_inv line1 line2 s e k p :
  bridge line1 line2 s e k = Some p →
  k ∈ line1 ∧ k ∈ line2
  ∧ p = spanPath line1 (indexOf line1 s) (indexOf line1 k)
        ++ sliceFrom (spanPath line2 (indexOf line2 k) (indexOf line2 e)) 1.
Proof.
  unfold bridge. repeat case_bool_decide; try done.
  intros [= <-]. split_and!; [by apply indexOf_present..|done].
Qed.

(** A candidate is the first leg followed by the second leg without its
    first station, the interchange. *)
Lemma bridge_split line1 line2 s e k p :
  s ∈ line1 → e ∈ line2 →
  bridge line1 line2 s e k = Some p →
  ∃ p1 p2,
    spanPath line1 (indexOf line1 s) (indexOf line1 k) = p1 ++ [k]
    ∧ spanPath line2 (indexOf line2 k) (indexOf line2 e) = k :: p2
    ∧ p = p1 ++ k :: p2.
Proof.
  intros Hs He Hp.
  apply bridge_Some_inv in Hp as (Hk1 & Hk2 & ->).
  destruct (indexOf_found _ _ Hs) as (s1 & -> & Hs1).
  destruct (indexOf_found _ _ He) as (e2 & -> & He2).
  destruct (indexOf_found _ _ Hk1) as (k1 & -> & Hk1').
  destruct (indexOf_found _ _ Hk2) as (k2 & -> & Hk2').
  destruct (spanPath_final line1 s1 k1 k) as [p1 Hp1];
    [by eapply lookup_lt_Some|done|].
  destruct (spanPath_first line2 k2 e2 k) as [p2 Hp2];
    [done|by eapply lookup_lt_Some|].
  exists p1, p2. rewrite Hp1, Hp2, sliceFrom_1. simpl.
  split_and!; try done. by rewrite <- app_assoc.
Qed.

(** The candidate of the opposite query is the same path read
    backwards. *)
Lemma bridge_swap_reverse line1 line2 s e k :
  s ∈ line1 → e ∈ line2 →
  bridge line2 line1 e s k = reverse <$> bridge line1 line2 s e k.
Proof.
  intros Hs He.
  destruct (bridge line1 line2 s e k) as [p|] eqn:Hp; simpl.
  - destruct (bridge_split _ _ _ _ _ _ Hs He Hp) as (p1 & p2 & H1 & H2 & ->).
    apply bridge_Some_inv in Hp as (Hk1 & Hk2 & _).
    unfold bridge.
    rewrite !bool_decide_eq_false_2
      by (rewrite indexOf_absent; by intros []).
    f_equal.
    rewrite (spanPath_reverse line2 (indexOf line2 e)), H2.
    rewrite (spanPath_reverse line1 (indexOf line1 k)), H1.
    rewrite sliceFrom_1, reverse_snoc, reverse_cons. simpl.
    by rewrite reverse_app, reverse_cons, <- !app_assoc.
  - destruct (decide (k ∈ line2)) as [Hk2|Hk2];
      [|by apply bridge_None; left].
    destruct (decide (k ∈ line1)) as [Hk1|Hk1];
      [|by apply bridge_None; right].
    destruct (bridge_is_Some line1 line2 s e k Hk1 Hk2) as [p Hp'].
    congruence.
Qed.

Lemma bridge_ends line1 line2 s e k p :
  s ∈ line1 → e ∈ line2 →
  bridge line1 line2 s e k = Some p →
  head p = Some s ∧ last p = Some e.
Proof.
  intros Hs He Hp.
  destruct (bridge_split _ _ _ _ _ _ Hs He Hp) as (p1 & p2 & H1 & H2 & ->).
  apply bridge_Some_inv in Hp as (Hk1 & Hk2 & _).
  destruct (indexOf_found _ _ Hs) as (s1 & Hsi & Hs1).
  destruct (indexOf_found _ _ He) as (e2 & Hei & He2).
  destruct (indexOf_found _ _ Hk1) as (k1 & Hki1 & Hk1').
  destruct (indexOf_found _ _ Hk2) as (k2 & Hki2 & Hk2').
  rewrite Hsi, Hki1 in H1. rewrite Hki2, Hei in H2.
  split.
  - destruct (spanPath_first line1 s1 k1 s) as [t Ht];
      [done|by eapply lookup_lt_Some|].
    rewrite Ht in H1.
    destruct p1 as [|z p1]; simpl in *; congruence.
  - destruct (spanPath_final line2 k2 e2 e) as [t Ht];
      [by eapply lookup_lt_Some|done|].
    rewrite last_app_cons, <- H2, Ht. apply last_snoc.
Qed.

Lemma bridge_elem_of line1 line2 s e k p x :
  bridge line1 line2 s e k = Some p → x ∈ p → x ∈ line1 ∨ x ∈ line2.
Proof.
  intros Hp Hx. apply bridge_Some_inv in Hp as (_ & _ & ->).
  rewrite sliceFrom_1 in Hx.
  apply elem_of_app in Hx as [Hx|Hx].
  - left. by eapply spanPath_elem_of.
  - right. eapply spanPath_elem_of.
    by apply (sublist_subseteq _ _ (sublist_drop _ 1)).
Qed.

Lemma bridge_length line1 line2 s e k p :
  s ∈ line1 → e ∈ line2 →
  bridge line1 line2 s e k = Some p →
  Z.of_nat (length p) - 1
  = Z.abs (indexOf line1 s - indexOf line1 k)
    + Z.abs (indexOf line2 k - indexOf line2 e).
Proof.
  intros Hs He Hp.
  apply bridge_Some_inv in Hp as (Hk1 & Hk2 & ->).
  destruct (indexOf_found _ _ Hs) as (s1 & -> & Hs1).
  destruct (indexOf_found _ _ He) as (e2 & -> & He2).
  destruct (indexOf_found _ _ Hk1) as (k1 & -> & Hk1').
  destruct (indexOf_found _ _ Hk2) as (k2 & -> & Hk2').
  apply lookup_lt_Some in Hs1, He2, Hk1', Hk2'.
  rewrite length_app, sliceFrom_1, length_drop, !spanPath_length by done.
  lia.
Qed.

(** * What the loop ends with *)

Lemma keepBest_cases best q k :
  ∃ b', keepBest best q k = Some b'
        ∧ (length (Route.path b') ≤ length q)%nat
        ∧ (∀ b, best = Some b →
                (length (Route.path b') ≤ length (Route.path b))%nat)
        ∧ (best = Some b' ∨ b' = Route.mk q 1 (Some k)).
Proof.
  destruct best as [b|]; simpl.
  - case_bool_decide.
    + eexists. split; [done|]. split_and!; simpl; [lia| |by right].
      intros ? [= <-]. lia.
    + exists b. split; [done|]. split_and!; [lia| |by left].
      by intros ? [= <-].
  - eexists. split; [done|]. split_and!; simpl; [lia|done|by right].
Qed.

(** The route the loop ends with was built for one of the keys, and no
    candidate and no earlier accumulator is shorter. *)
Lemma pickBest_sound cand keys best r :
  pickBest cand keys best = Some r →
  (best = Some r
   ∨ ∃ k, k ∈ keys ∧ cand k = Some (Route.path r)
          ∧ r = Route.mk (Route.path r) 1 (Some k))
  ∧ (∀ b, best = Some b →
          (length (Route.path r) ≤ length (Route.path b))%nat)
  ∧ (∀ k q, k ∈ keys → cand k = Some q →
            (length (Route.path r) ≤ length q)%nat).
Proof.
  revert best. induction keys as [|k keys IH]; intros best Hr.
  - split_and!; [by left| |].
    + intros b Hb. simpl in Hr. by simplify_eq.
    + intros k q Hk. by apply elem_of_nil in Hk.
  - rewrite pickBest_cons in Hr. apply IH in Hr as (Hfrom & Hacc & Hall).
    destruct (cand k) as [q|] eqn:Hk.
    + destruct (keepBest_cases best q k) as (b' & Hb' & Hq & Hold & Hnew).
      specialize (Hacc b' Hb').
      split_and!.
      * destruct Hfrom as [Hfrom|(k' & Hk' & Hc & Hrk)].
        -- rewrite Hb' in Hfrom. injection Hfrom as <-.
           destruct Hnew as [Hold' | ->]; [by left|].
           right. exists k. split_and!; [by left|done|done].
        -- right. exists k'. split_and!; [by right|done|done].
      * intros b Hb. specialize (Hold b Hb). lia.
      * intros k' q' Hin Hq'.
        apply elem_of_cons in Hin as [->|Hin]; [|by eapply Hall].
        assert (q' = q) as -> by congruence. lia.
    + split_and!.
      * destruct Hfrom as [?|(k' & Hk' & Hc & Hrk)]; [by left|].
        right. exists k'. split_and!; [by right|done|done].
      * done.
      * intros k' q' Hin Hq'.
        apply elem_of_cons in Hin as [->|Hin]; [congruence|by eapply Hall].
Qed.

(** Two runs of the loop whose candidates are reverses of each other, key
    by key, end with mirrored routes. *)
Lemma pickBest_mirrored (cand1 cand2 : string → option (list string))
    (keys : list string) (best1 best2 : option Route.t) :
  (∀ k, k ∈ keys → cand2 k = reverse <$> cand1 k) →
  mirrored best1 best2 →
  mirrored (pickBest cand1 keys best1) (pickBest cand2 keys best2).
Proof.
  revert best1 best2.
  induction keys as [|k keys IH]; intros best1 best2 Hall Hb; [done|].
  rewrite !pickBest_cons. apply IH.
  { intros k' Hk'. apply Hall. by right. }
  rewrite (Hall k) by left.
  destruct (cand1 k) as [p|]; simpl; [|done].
  destruct best1 as [a|], best2 as [b|]; simpl in *; try done.
  destruct Hb as (Hpath & ? & ?).
  rewrite Hpath, !length_reverse.
  case_bool_decide; simpl; auto.
Qed.

(** * Names that are not stations *)

Section guard.
Variable md : MetroData.t.

(** An inherited name as origin, next to any name that passes the guard:
    the same-line branch or the first iteration of the loop reads
    [lines[undefined]]. *)
Lemma findRouteIn_inherited_start a b :
  getStation md a = Inherited →
  getStation md b = Inherited
  ∨ (∃ n, getStation md b = OwnNode n)
    ∧ MetroData.interchanges md ≠ [] →
  findRouteIn md a b = Throw TypeError.
Proof.
  intros Ha [Hb|[[n Hb] Hkeys]]; unfold findRouteIn; rewrite Ha, Hb.
  - done.
  - cbn [truthy negb orb lineOf].
    rewrite bool_decide_eq_false_2 by done.
    destruct (MetroData.interchanges md) as [|[k ls] keys]; [done|].
    done.
Qed.

(** An inherited name as destination: the loop throws in the first
    iteration whose key lies on the origin's line. *)
Lemma loopBody_inherited_end a b n line1 k best :
  MetroData.lines md !! line n = Some line1 →
  k ∈ line1 →
  loopBody md (OwnNode n) Inherited a b best k = Throw TypeError.
Proof.
  intros Hl Hk. unfold loopBody, candidatePath, lineArray.
  cbn [getLine lineOf mbind option_bind]. rewrite Hl.
  cbn [mbind completion_bind].
  rewrite bool_decide_eq_false_2; [done|].
  rewrite indexOf_absent. by intros [].
Qed.

Lemma findRouteIn_inherited_end a b n line1 k keys :
  MetroData.stations md !! a = Some n →
  getStation md b = Inherited →
  MetroData.lines md !! line n = Some line1 →
  (MetroData.interchanges md).*1 = k :: keys →
  k ∈ line1 →
  findRouteIn md a b = Throw TypeError.
Proof.
  intros Ha Hb Hl Hkeys Hk. unfold findRouteIn.
  rewrite (getStation_own _ _ _ Ha), Hb, Hkeys.
  cbn [truthy negb orb lineOf forIn].
  case_bool_decide; [done|].
  by rewrite (loopBody_inherited_end _ _ _ _ _ _ Hl Hk).
Qed.

End guard.

(** * The configured network, name by name *)

Lemma getStation_cases md name :
  (∃ n, MetroData.stations md !! name = Some n
        ∧ getStation md name = OwnNode n)
  ∨ (MetroData.stations md !! name = None
     ∧ name ∈ objectPrototypeKeys
     ∧ getStation md name = Inherited)
  ∨ (unknownName md name ∧ getStation md name = Undefined).
Proof.
  unfold getStation, unknownName.
  destruct (MetroData.stations md !! name) as [n|]; [left; eauto|].
  right. case_bool_decide; [left|right]; done.
Qed.

Lemma metroData_keys :
  (MetroData.interchanges metroData).*1 = [ "Patna Junction"; "Khemni Chak" ].
Proof. reflexivity. Qed.

Lemma registered_known name :
  registered metroData name → ¬ unknownName metroData name.
Proof. intros [n Hn] [Hnone _]. congruence. Qed.

(** Each query falls in exactly one of three classes, by its names. *)
Lemma findRoute_cases a b :
  ((unknownName metroData a ∨ unknownName metroData b)
   ∧ findRoute a b = Normal None)
  ∨ (registered metroData a ∧ registered metroData b
     ∧ ∃ r, findRoute a b = Normal (Some r))
  ∨ (¬ unknownName metroData a ∧ ¬ unknownName metroData b
     ∧ (¬ registered metroData a ∨ ¬ registered metroData b)
     ∧ findRoute a b = Throw TypeError).
Proof.
  destruct (getStation_cases metroData a)
    as [(n1 & Ha & Hga)|[(Ha & Hpa & Hga)|[Hua Hga]]];
    [| |left; split; [by left|apply findRouteIn_unknown; by left]];
    (destruct (getStation_cases metroData b)
       as [(n2 & Hb & Hgb)|[(Hb & Hpb & Hgb)|[Hub Hgb]]];
     [| |left; split; [by right|apply findRouteIn_unknown; by right]]).
  - right. left. split_and!; [by eexists..|].
    apply findRoute_registered; by eexists.
  - right. right.
    destruct (metroData_home _ _ Ha) as (l1 & Hl1 & _ & Hkeys).
    split_and!.
    + apply registered_known. by eexists.
    + by intros [_ ?].
    + right. intros [n Hn]. congruence.
    + eapply findRouteIn_inherited_end;
        [done|done|done|apply metroData_keys|].
      apply Hkeys. rewrite metroData_keys. by left.
  - right. right. split_and!.
    + by intros [_ ?].
    + apply registered_known. by eexists.
    + left. intros [n Hn]. congruence.
    + apply findRouteIn_inherited_start; [done|].
      right. split; [by eexists|done].
  - right. right. split_and!.
    + by intros [_ ?].
    + by intros [_ ?].
    + left. intros [n Hn]. congruence.
    + apply findRouteIn_inherited_start; [done|by left].
Qed.

Lemma metroData_lines_sound l a :
  MetroData.lines metroData !! l = Some a →
  NoDup a ∧ ∀ x, x ∈ a → registered metroData x.
Proof.
  assert (map_Forall (λ _ a, lineSound a = true)
            (MetroData.lines metroData)) as Hall
    by (refine (bool_decide_unpack _ _); by vm_compute).
  intros Ha. specialize (Hall l a Ha). unfold lineSound in Hall.
  apply andb_prop in Hall as [H1 H2].
  apply bool_decide_eq_true in H1, H2.
  split; [done|]. by apply Forall_forall.
Qed.

(** * Routes, whatever the network *)

Section routes.
Variable md : MetroData.t.
Variables (a b : string) (n1 n2 : StationNode) (line1 line2 : list string).
Hypothesis Ha : MetroData.stations md !! a = Some n1.
Hypothesis Hb : MetroData.stations md !! b = Some n2.
Hypothesis Hl1 : MetroData.lines md !! line n1 = Some line1.
Hypothesis Hl2 : MetroData.lines md !! line n2 = Some line2.

(** With both line arrays in place the query returns, by one of the two
    branches. *)
Lemma findRouteIn_branches :
  (line n1 = line n2 ∧ line1 = line2
   ∧ findRouteIn md a b
     = Normal (Some (Route.mk (spanPath line1 (indexOf line1 a)
                                              (indexOf line1 b)) 0 None)))
  ∨ (line n1 ≠ line n2
     ∧ findRouteIn md a b
       = Normal (pickBest (bridge line1 line2 a b)
                          (MetroData.interchanges md).*1 None)).
Proof.
  destruct (decide (line n1 = line n2)) as [Heq|Hne].
  - left. split; [done|]. split; [congruence|].
    by apply (findRouteIn_same_line _ _ _ n1 n2).
  - right. split; [done|]. by apply (findRouteIn_cross_line _ _ _ n1 n2).
Qed.

(** What a returned route looks like. *)
Lemma findRouteIn_route_inv r :
  findRouteIn md a b = Normal (Some r) →
  (line n1 = line n2 ∧ line1 = line2
   ∧ r = Route.mk (spanPath line1 (indexOf line1 a) (indexOf line1 b))
                  0 None)
  ∨ (line n1 ≠ line n2
     ∧ ∃ k, k ∈ (MetroData.interchanges md).*1
            ∧ bridge line1 line2 a b k = Some (Route.path r)
            ∧ r = Route.mk (Route.path r) 1 (Some k)
            ∧ ∀ k' q, k' ∈ (MetroData.interchanges md).*1 →
                      bridge line1 line2 a b k' = Some q →
                      (length (Route.path r) ≤ length q)%nat).
Proof.
  intros Hr.
  destruct findRouteIn_branches as [(Heq & Hl & H)|(Hne & H)];
    rewrite H in Hr.
  - left. split_and!; [done|done|congruence].
  - right. split; [done|].
    assert (pickBest (bridge line1 line2 a b)
              (MetroData.interchanges md).*1 None = Some r) as Hpick
      by congruence.
    apply pickBest_sound in Hpick as ([?|(k & Hk & Hc & Hrk)] & _ & Hmin);
      [done|].
    exists k. split_and!; try done.
Qed.

End routes.

(** Whatever the names and the network, what the loop returns was stored
    by [keepBest] for one of the keys. *)
Lemma forIn_loopBody_inv md s e a b (P : option Route.t → Prop) keys best o :
  P best →
  (∀ best' p k, k ∈ keys → P best' → P (keepBest best' p k)) →
  forIn (loopBody md s e a b) keys best = Normal o →
  P o.
Proof.
  revert best. induction keys as [|k keys IH]; intros best Hbest Hstep Hrun.
  - simpl in Hrun. congruence.
  - cbn [forIn] in Hrun.
    destruct (loopBody md s e a b best k) as [best'|err] eqn:Hbody;
      [|done].
    cbn [mbind completion_bind] in Hrun.
    apply (IH best'); [|intros; apply Hstep; [by right|done]|done].
    unfold loopBody in Hbody.
    destruct (candidatePath md s e a b k) as [[p|]|]; simpl in Hbody;
      [| |done].
    + injection Hbody as <-. apply Hstep; [by left|done].
    + congruence.
Qed.

(** A returned route starts at the origin and ends at the destination
    when both lie on their line arrays. *)
Lemma findRouteIn_ends md a b n1 n2 line1 line2 r :
  MetroData.stations md !! a = Some n1 →
  MetroData.stations md !! b = Some n2 →
  MetroData.lines md !! line n1 = Some line1 →
  MetroData.lines md !! line n2 = Some line2 →
  a ∈ line1 → b ∈ line2 →
  findRouteIn md a b = Normal (Some r) →
  head (Route.path r) = Some a ∧ last (Route.path r) = Some b.
Proof.
  intros Ha Hb Hl1 Hl2 Hin1 Hin2 Hr.
  destruct (findRouteIn_route_inv _ _ _ _ _ _ _ Ha Hb Hl1 Hl2 r Hr)
    as [(_ & <- & ->)|(_ & k & _ & Hk & _)].
  - cbn [Route.path].
    destruct (indexOf_found _ _ Hin1) as (i & -> & Hi).
    destruct (indexOf_found _ _ Hin2) as (j & -> & Hj).
    destruct (spanPath_first line1 i j a) as [t Ht];
      [done|by eapply lookup_lt_Some|].
    destruct (spanPath_final line1 i j b) as [t' Ht'];
      [by eapply lookup_lt_Some|done|].
    split; [by rewrite Ht|].
    rewrite Ht'. apply last_snoc.
  - by apply (bridge_ends line1 line2 a b k).
Qed.

(** On the configured network a returned route comes with registered
    names that lie on their line arrays. *)
Lemma findRoute_route_setting a b r :
  findRoute a b = Normal (Some r) →
  ∃ n1 n2 line1 line2,
    MetroData.stations metroData !! a = Some n1
    ∧ MetroData.stations metroData !! b = Some n2
    ∧ MetroData.lines metroData !! line n1 = Some line1
    ∧ MetroData.lines metroData !! line n2 = Some line2
    ∧ a ∈ line1 ∧ b ∈ line2.
Proof.
  intros Hr.
  destruct (findRoute_cases a b)
    as [[_ H]|[(Ha & Hb & _)|(_ & _ & _ & H)]]; [congruence| |congruence].
  destruct Ha as [n1 Ha], Hb as [n2 Hb].
  destruct (metroData_home _ _ Ha) as (l1 & Hl1 & Hin1 & _).
  destruct (metroData_home _ _ Hb) as (l2 & Hl2 & Hin2 & _).
  by exists n1, n2, l1, l2.
Qed.

(** * Further properties of [findRoute] *)

(** X1.  On the configured network the outcome of [findRoute] is decided by
    the two names alone: [null] exactly when the station lookup of one of
    them reads [undefined], a route exactly when both are registered, and
    a [TypeError] in every other case (a name inherited from
    [Object.prototype] next to a name that passes the guard). *)
Theorem findRoute_outcome_by_names a b :
  (findRoute a b = Normal None
   ↔ unknownName metroData a ∨ unknownName metroData b)
  ∧ ((∃ r, findRoute a b = Normal (Some r))
     ↔ registered metroData a ∧ registered metroData b)
  ∧ (findRoute a b = Throw TypeError
     ↔ ¬ unknownName metroData a ∧ ¬ unknownName metroData b
       ∧ (¬ registered metroData a ∨ ¬ registered metroData b)).
Proof.
  pose proof (registered_known a). pose proof (registered_known b).
  destruct (findRoute_cases a b)
    as [[Hu ->]|[(Ha & Hb & r & ->)|(Hna & Hnb & Hreg & ->)]];
    split_and!; split; intros Hx;
    first [done | tauto | by eauto | by destruct Hx].
Qed.

(** X2.  The handler answers 400 exactly when a parameter is absent or empty,
    whatever the network and whatever [findRoute] would do with the other
    name. *)
Theorem missing_parameter_is_400 md from to :
  apiRouteIn md from to = Normal Status400
  ↔ missing from = true ∨ missing to = true.
Proof.
  unfold apiRouteIn.
  destruct from as [f|], to as [t|]; simpl; try (split; [auto|done]).
  destruct (bool_decide (f = EmptyString)) eqn:Hf,
           (bool_decide (t = EmptyString)) eqn:Ht; simpl;
    try (split; [auto|done]).
  split; [|by intros [|]].
  destruct (findRouteIn md f t) as [[r|]|]; simpl; done.
Qed.

(** X3.  On the configured network, a query with both names given is answered
    404 exactly when both are non-empty and one of them reads [undefined]
    in the station lookup, and with a JSON payload exactly when both are
    registered stations. *)
Theorem apiRoute_reply_by_names f t :
  (apiRoute (Some f) (Some t) = Normal Status404
   ↔ f ≠ EmptyString ∧ t ≠ EmptyString
     ∧ (unknownName metroData f ∨ unknownName metroData t))
  ∧ ((∃ resp, apiRoute (Some f) (Some t) = Normal (Json resp))
     ↔ registered metroData f ∧ registered metroData t).
Proof.
  assert (∀ name, registered metroData name → name ≠ EmptyString) as Hne.
  { intros name [n Hn] ->. by vm_compute in Hn. }
  pose proof (registered_known f). pose proof (registered_known t).
  pose proof (Hne f). pose proof (Hne t).
  unfold apiRoute, apiRouteIn, missing.
  destruct (decide (f = EmptyString)) as [Hf|Hf].
  { rewrite (bool_decide_eq_true_2 _ Hf). cbn [orb].
    split; split; intros Hx; first [done | tauto | by destruct Hx]. }
  destruct (decide (t = EmptyString)) as [Ht|Ht].
  { rewrite (bool_decide_eq_true_2 _ Ht), orb_true_r.
    split; split; intros Hx; first [done | tauto | by destruct Hx]. }
  rewrite !bool_decide_eq_false_2 by done. cbn [orb].
  destruct (findRoute_cases f t)
    as [[Hu Hr]|[(Ha & Hb & r & Hr)|(Hna & Hnb & Hreg & Hr)]];
    unfold findRoute in Hr; rewrite Hr; cbn [mbind completion_bind];
    split; split; intros Hx;
    first [done | tauto | by eauto | by destruct Hx].
Qed.

(** X4.  Every route returned on the configured network starts at the origin
    and ends at the destination. *)
Theorem route_runs_from_origin_to_destination a b r :
  findRoute a b = Normal (Some r) →
  head (Route.path r) = Some a ∧ last (Route.path r) = Some b.
Proof.
  intros Hr.
  destruct (findRoute_route_setting a b r Hr)
    as (n1 & n2 & l1 & l2 & Ha & Hb & Hl1 & Hl2 & Hin1 & Hin2).
  by apply (findRouteIn_ends metroData a b n1 n2 l1 l2).
Qed.

Lemma route_runs_from_origin_to_destination_witness :
  head (Route.path danapurToNewISBT) = Some "Danapur Cantonment"
  ∧ last (Route.path danapurToNewISBT) = Some "New ISBT".
Proof.
  apply (route_runs_from_origin_to_destination
           "Danapur Cantonment" "New ISBT" danapurToNewISBT).
  by vm_compute.
Defined.

(** X5.  Every station of a returned route lies on the line array of the
    origin or on that of the destination. *)
Theorem route_stations_lie_on_the_two_lines md a b n1 n2 line1 line2 r :
  MetroData.stations md !! a = Some n1 →
  MetroData.stations md !! b = Some n2 →
  MetroData.lines md !! line n1 = Some line1 →
  MetroData.lines md !! line n2 = Some line2 →
  findRouteIn md a b = Normal (Some r) →
  ∀ x, x ∈ Route.path r → x ∈ line1 ∨ x ∈ line2.
Proof.
  intros Ha Hb Hl1 Hl2 Hr x Hx.
  destruct (findRouteIn_route_inv _ _ _ _ _ _ _ Ha Hb Hl1 Hl2 r Hr)
    as [(_ & _ & ->)|(_ & k & _ & Hk & _)].
  - left. by eapply spanPath_elem_of.
  - by eapply bridge_elem_of.
Qed.

Lemma route_stations_lie_on_the_two_lines_witness :
  Forall
    (λ x, x ∈ [ "Danapur Cantonment"; "Saguna More"; "RPS More";
                "Patliputra"; "Rukanpura"; "Raja Bazar"; "Patna Zoo";
                "Vikas Bhawan"; "Vidyut Bhawan"; "Patna Junction";
                "Mithapur"; "Ramkrishna Nagar"; "Jaganpur"; "Khemni Chak" ]
          ∨ x ∈ [ "Patna Junction"; "Akashvani"; "Gandhi Maidan"; "PMCH";
                  "Patna University"; "Moin Ul Haq Stadium";
                  "Rajendra Nagar"; "Malahi Pakri"; "Khemni Chak";
                  "Bhoothnath"; "Zero Mile"; "New ISBT" ])
    (Route.path danapurToNewISBT).
Proof.
  apply Forall_forall.
  apply (route_stations_lie_on_the_two_lines metroData
           "Danapur Cantonment" "New ISBT"
           (mkStation 1 false) (mkStation 2 false)); by vm_compute.
Defined.

(** X6.  When both stations lie on their line arrays, the two opposite queries
    return the same path read in opposite directions, through the same
    interchange (or both return [null]). *)
Theorem opposite_queries_mirror md a b n1 n2 line1 line2 :
  MetroData.stations md !! a = Some n1 →
  MetroData.stations md !! b = Some n2 →
  MetroData.lines md !! line n1 = Some line1 →
  MetroData.lines md !! line n2 = Some line2 →
  a ∈ line1 → b ∈ line2 →
  ∃ o1 o2, findRouteIn md a b = Normal o1
           ∧ findRouteIn md b a = Normal o2
           ∧ mirrored o1 o2.
Proof.
  intros Ha Hb Hl1 Hl2 Hin1 Hin2.
  destruct (findRouteIn_branches _ _ _ _ _ _ _ Ha Hb Hl1 Hl2)
    as [(Heq & <- & ->)|(Hne & ->)];
    destruct (findRouteIn_branches _ _ _ _ _ _ _ Hb Ha Hl2 Hl1)
    as [(Heq' & _ & ->)|(Hne' & ->)]; try congruence.
  - eexists _, _. split_and!; try done; simpl.
    split_and!; try done. apply spanPath_reverse.
  - eexists _, _. split_and!; try done.
    apply pickBest_mirrored; [|done].
    intros k _. by apply bridge_swap_reverse.
Qed.

Lemma opposite_queries_mirror_witness :
  ∃ o1 o2, findRoute "Danapur Cantonment" "New ISBT" = Normal o1
           ∧ findRoute "New ISBT" "Danapur Cantonment" = Normal o2
           ∧ mirrored o1 o2.
Proof.
  apply (opposite_queries_mirror metroData "Danapur Cantonment" "New ISBT"
           (mkStation 1 false) (mkStation 2 false)
           [ "Danapur Cantonment"; "Saguna More"; "RPS More"; "Patliputra";
             "Rukanpura"; "Raja Bazar"; "Patna Zoo"; "Vikas Bhawan";
             "Vidyut Bhawan"; "Patna Junction"; "Mithapur";
             "Ramkrishna Nagar"; "Jaganpur"; "Khemni Chak" ]
           [ "Patna Junction"; "Akashvani"; "Gandhi Maidan"; "PMCH";
             "Patna University"; "Moin Ul Haq Stadium"; "Rajendra Nagar";
             "Malahi Pakri"; "Khemni Chak"; "Bhoothnath"; "Zero Mile";
             "New ISBT" ]);
    try (by vm_compute);
    refine (bool_decide_unpack _ _); by vm_compute.
Defined.

(** X7.  A route returned by the cross-line loop is the candidate of one of
    the interchange keys, a key lying on both line arrays, and no
    candidate of any key is shorter. *)
Theorem cross_line_route_is_a_shortest_candidate
    md a b n1 n2 line1 line2 r :
  MetroData.stations md !! a = Some n1 →
  MetroData.stations md !! b = Some n2 →
  MetroData.lines md !! line n1 = Some line1 →
  MetroData.lines md !! line n2 = Some line2 →
  line n1 ≠ line n2 →
  findRouteIn md a b = Normal (Some r) →
  ∃ k, k ∈ (MetroData.interchanges md).*1
       ∧ k ∈ line1 ∧ k ∈ line2
       ∧ Route.changeAt r = Some k
       ∧ Route.interchanges r = 1
       ∧ candidatePath md (OwnNode n1) (OwnNode n2) a b k
         = Normal (Some (Route.path r))
       ∧ ∀ k' q,
           k' ∈ (MetroData.interchanges md).*1 →
           candidatePath md (OwnNode n1) (OwnNode n2) a b k'
           = Normal (Some q) →
           (length (Route.path r) ≤ length q)%nat.
Proof.
  intros Ha Hb Hl1 Hl2 Hne Hr.
  assert (∀ k, candidatePath md (OwnNode n1) (OwnNode n2) a b k
               = Normal (bridge line1 line2 a b k)) as Hcand
    by (intros k; by apply candidatePath_bridge).
  destruct (findRouteIn_route_inv _ _ _ _ _ _ _ Ha Hb Hl1 Hl2 r Hr)
    as [(? & _)|(_ & k & Hk & Hp & Hrk & Hmin)]; [done|].
  destruct (bridge_Some_inv _ _ _ _ _ _ Hp) as (Hk1 & Hk2 & _).
  exists k. split_and!; try done.
  - by rewrite Hrk.
  - by rewrite Hrk.
  - rewrite Hcand. by f_equal.
  - intros k' q Hk' Hq. apply (Hmin k' q Hk').
    rewrite Hcand in Hq. congruence.
Qed.

Lemma cross_line_route_is_a_shortest_candidate_witness :
  ∃ k, k ∈ (MetroData.interchanges metroData).*1
       ∧ k ∈ [ "Danapur Cantonment"; "Saguna More"; "RPS More";
               "Patliputra"; "Rukanpura"; "Raja Bazar"; "Patna Zoo";
               "Vikas Bhawan"; "Vidyut Bhawan"; "Patna Junction";
               "Mithapur"; "Ramkrishna Nagar"; "Jaganpur"; "Khemni Chak" ]
       ∧ k ∈ [ "Patna Junction"; "Akashvani"; "Gandhi Maidan"; "PMCH";
               "Patna University"; "Moin Ul Haq Stadium"; "Rajendra Nagar";
               "Malahi Pakri"; "Khemni Chak"; "Bhoothnath"; "Zero Mile";
               "New ISBT" ]
       ∧ Route.changeAt danapurToNewISBT = Some k
       ∧ Route.interchanges danapurToNewISBT = 1
       ∧ candidatePath metroData (OwnNode (mkStation 1 false))
           (OwnNode (mkStation 2 false)) "Danapur Cantonment" "New ISBT" k
         = Normal (Some (Route.path danapurToNewISBT))
       ∧ ∀ k' q,
           k' ∈ (MetroData.interchanges metroData).*1 →
           candidatePath metroData (OwnNode (mkStation 1 false))
             (OwnNode (mkStation 2 false)) "Danapur Cantonment" "New ISBT" k'
           = Normal (Some q) →
           (length (Route.path danapurToNewISBT) ≤ length q)%nat.
Proof.
  apply (cross_line_route_is_a_shortest_candidate metroData
           "Danapur Cantonment" "New ISBT"); by vm_compute.
Defined.

(** X8.  With both line arrays in place, the cross-line loop returns [null]
    exactly when no interchange key lies on both of them. *)
Theorem cross_line_null_iff_no_bridge md a b n1 n2 line1 line2 :
  MetroData.stations md !! a = Some n1 →
  MetroData.stations md !! b = Some n2 →
  MetroData.lines md !! line n1 = Some line1 →
  MetroData.lines md !! line n2 = Some line2 →
  line n1 ≠ line n2 →
  findRouteIn md a b = Normal None
  ↔ ∀ k, k ∈ (MetroData.interchanges md).*1 →
         k ∉ line1 ∨ k ∉ line2.
Proof.
  intros Ha Hb Hl1 Hl2 Hne.
  rewrite (findRouteIn_cross_line _ _ _ _ _ _ _ Ha Hb Hne Hl1 Hl2).
  split.
  - intros Hnull k Hk.
    destruct (decide (k ∈ line1)) as [Hk1|]; [|by left].
    destruct (decide (k ∈ line2)) as [Hk2|]; [|by right].
    destruct (pickBest_is_Some (bridge line1 line2 a b)
                (MetroData.interchanges md).*1 None k Hk) as [r Hr].
    + by apply bridge_is_Some.
    + congruence.
  - intros Hnone. f_equal. apply pickBest_no_candidate.
    intros k Hk. by apply bridge_None, Hnone.
Qed.

Lemma cross_line_null_iff_no_bridge_witness :
  findRouteIn isolatedLines "A" "B" = Normal None
  ↔ ∀ k, k ∈ (MetroData.interchanges isolatedLines).*1 →
         k ∉ [ "A" ] ∨ k ∉ [ "B" ].
Proof.
  apply (cross_line_null_iff_no_bridge isolatedLines "A" "B"
           (mkStation 1 false) (mkStation 2 false)); by vm_compute.
Defined.

Lemma indexOf_nat a x (i : nat) :
  indexOf a x = Z.of_nat i → a !! i = Some x.
Proof.
  unfold indexOf.
  destruct (list_find (λ y, y = x) a) as [[n y]|] eqn:Hf; [|lia].
  apply list_find_Some in Hf as (Hn & -> & _).
  intros Hi. by replace i with n by lia.
Qed.

(** X9.  The number of stations travelled is the distance between the
    positions on the line arrays: from origin to destination on a common
    line, or from origin to the interchange plus from the interchange to
    the destination. *)
Theorem stations_travelled_is_index_distance
    md a b n1 n2 line1 line2 r :
  MetroData.stations md !! a = Some n1 →
  MetroData.stations md !! b = Some n2 →
  MetroData.lines md !! line n1 = Some line1 →
  MetroData.lines md !! line n2 = Some line2 →
  a ∈ line1 → b ∈ line2 →
  findRouteIn md a b = Normal (Some r) →
  match Route.changeAt r with
  | None =>
      numberOfStations r = Z.abs (indexOf line1 a - indexOf line1 b)
  | Some k =>
      numberOfStations r
      = Z.abs (indexOf line1 a - indexOf line1 k)
        + Z.abs (indexOf line2 k - indexOf line2 b)
  end.
Proof.
  intros Ha Hb Hl1 Hl2 Hin1 Hin2 Hr.
  destruct (findRouteIn_route_inv _ _ _ _ _ _ _ Ha Hb Hl1 Hl2 r Hr)
    as [(_ & <- & ->)|(_ & k & _ & Hk & -> & _)];
    unfold numberOfStations; cbn [Route.changeAt Route.path].
  - destruct (indexOf_found _ _ Hin1) as (i & -> & Hi).
    destruct (indexOf_found _ _ Hin2) as (j & -> & Hj).
    apply lookup_lt_Some in Hi, Hj.
    rewrite spanPath_length by done. lia.
  - by apply bridge_length.
Qed.

Lemma stations_travelled_is_index_distance_witness :
  numberOfStations danapurToNewISBT = Z.abs (0 - 13) + Z.abs (8 - 11).
Proof.
  refine (stations_travelled_is_index_distance metroData
            "Danapur Cantonment" "New ISBT"
            (mkStation 1 false) (mkStation 2 false)
            [ "Danapur Cantonment"; "Saguna More"; "RPS More"; "Patliputra";
              "Rukanpura"; "Raja Bazar"; "Patna Zoo"; "Vikas Bhawan";
              "Vidyut Bhawan"; "Patna Junction"; "Mithapur";
              "Ramkrishna Nagar"; "Jaganpur"; "Khemni Chak" ]
            [ "Patna Junction"; "Akashvani"; "Gandhi Maidan"; "PMCH";
              "Patna University"; "Moin Ul Haq Stadium"; "Rajendra Nagar";
              "Malahi Pakri"; "Khemni Chak"; "Bhoothnath"; "Zero Mile";
              "New ISBT" ]
            danapurToNewISBT _ _ _ _ _ _ _);
    try (by vm_compute);
    refine (bool_decide_unpack _ _); by vm_compute.
Defined.

(** X10.  A same-line route follows the line array: its station number [k] is
    the station [k] places after the origin when the destination comes
    later in the array, and [k] places before it otherwise. *)
Theorem same_line_route_follows_the_line md a b n1 n2 l (i j : nat) :
  MetroData.stations md !! a = Some n1 →
  MetroData.stations md !! b = Some n2 →
  line n1 = line n2 →
  MetroData.lines md !! line n1 = Some l →
  indexOf l a = Z.of_nat i →
  indexOf l b = Z.of_nat j →
  ∃ r, findRouteIn md a b = Normal (Some r)
       ∧ length (Route.path r) = S (Nat.max i j - Nat.min i j)
       ∧ ∀ k : nat, (k ≤ Nat.max i j - Nat.min i j)%nat →
           Route.path r !! k
           = l !! (if bool_decide (i ≤ j)%nat then i + k else i - k)%nat.
Proof.
  intros Ha Hb Heq Hl Hi Hj.
  rewrite (findRouteIn_same_line _ _ _ _ _ _ Ha Hb Heq Hl), Hi, Hj.
  apply indexOf_nat, lookup_lt_Some in Hi, Hj.
  eexists. split; [done|]. cbn [Route.path]. split.
  - by apply spanPath_length.
  - intros k Hk. by apply spanPath_lookup.
Qed.

Lemma same_line_route_follows_the_line_witness :
  ∃ r, findRoute "PMCH" "Akashvani" = Normal (Some r)
       ∧ length (Route.path r) = S (Nat.max 3 1 - Nat.min 3 1)
       ∧ ∀ k : nat, (k ≤ Nat.max 3 1 - Nat.min 3 1)%nat →
           Route.path r !! k
           = [ "Patna Junction"; "Akashvani"; "Gandhi Maidan"; "PMCH";
               "Patna University"; "Moin Ul Haq Stadium"; "Rajendra Nagar";
               "Malahi Pakri"; "Khemni Chak"; "Bhoothnath"; "Zero Mile";
               "New ISBT" ]
             !! (if bool_decide (3 ≤ 1)%nat then 3 + k else 3 - k)%nat.
Proof.
  apply (same_line_route_follows_the_line metroData "PMCH" "Akashvani"
           (mkStation 2 false) (mkStation 2 false)); by vm_compute.
Defined.

(** X11.  When every registered station's line has an array, a query between
    registered stations never throws, in [findRoute] or in the handler. *)
Theorem no_exception_when_lines_exist md a b :
  (∀ name n, MetroData.stations md !! name = Some n →
             is_Some (MetroData.lines md !! line n)) →
  registered md a → registered md b →
  (∃ o, findRouteIn md a b = Normal o)
  ∧ ∃ reply, apiRouteIn md (Some a) (Some b) = Normal reply.
Proof.
  intros Hlines [n1 Ha] [n2 Hb].
  destruct (Hlines _ _ Ha) as [l1 Hl1], (Hlines _ _ Hb) as [l2 Hl2].
  assert (∃ o, findRouteIn md a b = Normal o) as [o Ho].
  { destruct (findRouteIn_branches _ _ _ _ _ _ _ Ha Hb Hl1 Hl2)
      as [(_ & _ & ->)|(_ & ->)]; eauto. }
  split; [eauto|].
  unfold apiRouteIn. rewrite Ho.
  destruct (missing (Some a) || missing (Some b)); [eauto|].
  destruct o; simpl; eauto.
Qed.

Lemma no_exception_when_lines_exist_witness :
  (∃ o, findRouteIn strayStation "C" "A" = Normal o)
  ∧ ∃ reply, apiRouteIn strayStation (Some "C") (Some "A") = Normal reply.
Proof.
  apply (no_exception_when_lines_exist strayStation "C" "A").
  - intros name n Hn. exists [ "A"; "B" ].
    assert (map_Forall (λ _ n, line n = 1)
              (MetroData.stations strayStation)) as Hall
      by (refine (bool_decide_unpack _ _); by vm_compute).
    by rewrite (Hall name n Hn).
  - exists (mkStation 1 false). by vm_compute.
  - exists (mkStation 1 false). by vm_compute.
Defined.

(** X12.  Whatever the network and the names, a returned route either has no
    interchange and no [changeAt], or one interchange and a [changeAt]
    that is a key of [interchanges]. *)
Theorem route_has_at_most_one_interchange md a b r :
  findRouteIn md a b = Normal (Some r) →
  (Route.interchanges r = 0 ∧ Route.changeAt r = None)
  ∨ (Route.interchanges r = 1
     ∧ ∃ k, Route.changeAt r = Some k
            ∧ k ∈ (MetroData.interchanges md).*1).
Proof.
  unfold findRouteIn.
  destruct (negb (truthy (getStation md a))
            || negb (truthy (getStation md b))); [done|].
  case_bool_decide.
  - destruct (lineArray md (lineOf (getStation md a))) as [l|]; [|done].
    intros [= <-]. by left.
  - intros Hrun. right.
    refine (forIn_loopBody_inv _ _ _ _ _
              (λ o, ∀ r, o = Some r →
                 Route.interchanges r = 1
                 ∧ ∃ k, Route.changeAt r = Some k
                        ∧ k ∈ (MetroData.interchanges md).*1)
              _ None _ _ _ Hrun r eq_refl); [done|].
    intros best p k Hk Hbest r' Hr'.
    destruct best as [b'|]; simpl in Hr'.
    + case_bool_decide; [|by apply Hbest].
      injection Hr' as <-. simpl. eauto.
    + injection Hr' as <-. simpl. eauto.
Qed.

Lemma route_has_at_most_one_interchange_witness :
  (Route.interchanges danapurToNewISBT = 0
   ∧ Route.changeAt danapurToNewISBT = None)
  ∨ (Route.interchanges danapurToNewISBT = 1
     ∧ ∃ k, Route.changeAt danapurToNewISBT = Some k
            ∧ k ∈ (MetroData.interchanges metroData).*1).
Proof.
  apply (route_has_at_most_one_interchange metroData
           "Danapur Cantonment" "New ISBT").
  by vm_compute.
Defined.

(** X13.  No route returned on the configured network visits a station
    twice. *)
Theorem no_route_repeats_a_station a b r :
  findRoute a b = Normal (Some r) → NoDup (Route.path r).
Proof.
  intros Hr.
  destruct (findRoute_route_setting a b r Hr)
    as (n1 & n2 & _ & _ & Ha & Hb & _).
  set (names := (map_to_list (MetroData.stations metroData)).*1).
  assert (Forall (λ x, Forall (λ y, routeNoDup x y = true) names) names)
    as Hall by (refine (bool_decide_unpack _ _); by vm_compute).
  assert (∀ x n, MetroData.stations metroData !! x = Some n → x ∈ names)
    as Hnames.
  { intros x n Hx. apply list_elem_of_fmap. exists (x, n).
    split; [done|]. by apply elem_of_map_to_list. }
  rewrite Forall_forall in Hall.
  pose proof (Hall a (Hnames _ _ Ha)) as Hrow.
  rewrite Forall_forall in Hrow.
  pose proof (Hrow b (Hnames _ _ Hb)) as Hab.
  unfold routeNoDup in Hab. rewrite Hr in Hab.
  by apply bool_decide_eq_true in Hab.
Qed.

Lemma no_route_repeats_a_station_witness :
  NoDup (Route.path danapurToNewISBT).
Proof.
  apply (no_route_repeats_a_station "Danapur Cantonment" "New ISBT").
  by vm_compute.
Defined.

(** X14.  For every route [findRoute] returns on the configured network,
    the number of stations travelled is not negative, and the price and
    the time the handler computes from the route are zero exactly when
    origin and destination are the same station. *)
Theorem fare_is_zero_only_for_same_station a b r :
  findRoute a b = Normal (Some r) →
  0 ≤ numberOfStations r
  ∧ (estimatedPrice r = 0 ↔ a = b)
  ∧ (estimatedTime r = 0 ↔ a = b).
Proof.
  intros Hr.
  destruct (findRoute_route_setting a b r Hr)
    as (n1 & n2 & l1 & l2 & Ha & Hb & Hl1 & Hl2 & Hin1 & Hin2).
  destruct (findRouteIn_ends _ _ _ _ _ _ _ _ Ha Hb Hl1 Hl2 Hin1 Hin2 Hr)
    as [Hhead Hlast].
  assert (Route.interchanges r = 0 ∨ Route.interchanges r = 1) as Hk.
  { destruct (findRouteIn_route_inv _ _ _ _ _ _ _ Ha Hb Hl1 Hl2 r Hr)
      as [(_ & _ & ->)|(_ & k & _ & _ & -> & _)]; auto. }
  assert (a = b → numberOfStations r = 0 ∧ Route.interchanges r = 0)
    as Hsame.
  { intros <-. assert (n2 = n1) as -> by congruence.
    assert (l2 = l1) as -> by congruence.
    destruct (indexOf_found _ _ Hin1) as (i & Hi & Hlook).
    unfold findRoute in Hr.
    rewrite (findRouteIn_same_line _ _ _ _ _ _ Ha Ha eq_refl Hl1) in Hr.
    rewrite Hi, (spanPath_same _ _ _ Hlook) in Hr.
    injection Hr as <-. done. }
  assert (numberOfStations r = 0 → a = b) as Hzero.
  { unfold numberOfStations.
    destruct (Route.path r) as [|x [|y p]].
    - by cbn in Hhead.
    - cbn in Hhead, Hlast. congruence.
    - cbn [length]. lia. }
  assert (0 ≤ numberOfStations r) as Hpos.
  { unfold numberOfStations.
    destruct (Route.path r) as [|x p].
    - by cbn in Hhead.
    - cbn [length]. lia. }
  unfold estimatedPrice, estimatedTime, COST_PER_STATION_INR,
    TIME_PER_STATION_MINS, INTERCHANGE_TIME_MINS.
  split_and!; try done.
  - split; [intros; apply Hzero; lia|].
    intros Hab. destruct (Hsame Hab). lia.
  - split; [intros; apply Hzero; lia|].
    intros Hab. destruct (Hsame Hab). lia.
Qed.

Lemma fare_is_zero_only_for_same_station_witness :
  0 ≤ numberOfStations danapurToNewISBT
  ∧ (estimatedPrice danapurToNewISBT = 0
     ↔ "Danapur Cantonment" = "New ISBT")
  ∧ (estimatedTime danapurToNewISBT = 0
     ↔ "Danapur Cantonment" = "New ISBT").
Proof.
  apply (fare_is_zero_only_for_same_station
           "Danapur Cantonment" "New ISBT" danapurToNewISBT).
  by vm_compute.
Defined.

(** * The data literal *)

(** X15.  The [metroData] literal is consistent: no line array repeats a
    station and each lists registered stations only; every registered
    station is on the array of its own line; a station's [interchange]
    flag is set exactly when it is a key of [interchanges]; and the keys
    of [interchanges] are exactly the names found on the arrays of two
    different lines. *)
Theorem metroData_is_consistent :
  (∀ l arr, MetroData.lines metroData !! l = Some arr →
     NoDup arr ∧ ∀ x, x ∈ arr → registered metroData x)
  ∧ (∀ name n, MetroData.stations metroData !! name = Some n →
       ∃ arr, MetroData.lines metroData !! line n = Some arr ∧ name ∈ arr)
  ∧ (∀ name n, MetroData.stations metroData !! name = Some n →
       (interchange n = true
        ↔ name ∈ (MetroData.interchanges metroData).*1))
  ∧ (∀ name, name ∈ (MetroData.interchanges metroData).*1
       ↔ ∃ l l' arr arr',
           l ≠ l'
           ∧ MetroData.lines metroData !! l = Some arr
           ∧ MetroData.lines metroData !! l' = Some arr'
           ∧ name ∈ arr ∧ name ∈ arr').
Proof.
  split_and!.
  - apply metroData_lines_sound.
  - intros name n Hn.
    destruct (metroData_home _ _ Hn) as (arr & Harr & Hin & _). eauto.
  - intros name n Hn.
    assert (map_Forall
              (λ name n,
                 interchange n
                 = bool_decide
                     (name ∈ (MetroData.interchanges metroData).*1))
              (MetroData.stations metroData)) as Hall
      by (refine (bool_decide_unpack _ _); by vm_compute).
    rewrite (Hall name n Hn). apply bool_decide_eq_true.
  - intros name. split.
    + intros Hkey.
      assert (Forall
                (λ k, ∃ arr arr',
                   MetroData.lines metroData !! 1 = Some arr
                   ∧ MetroData.lines metroData !! 2 = Some arr'
                   ∧ k ∈ arr ∧ k ∈ arr')
                (MetroData.interchanges metroData).*1) as Hall.
      { repeat constructor; eexists _, _;
          (split; [by vm_compute|]); (split; [by vm_compute|]);
          split; refine (bool_decide_unpack _ _); by vm_compute. }
      rewrite Forall_forall in Hall.
      destruct (Hall name Hkey) as (arr & arr' & ? & ? & ? & ?).
      by exists 1, 2, arr, arr'.
    + intros (l & l' & arr & arr' & Hne & Hl & Hl' & Hin & Hin').
      assert (map_Forall
                (λ l arr,
                   map_Forall
                     (λ l' arr',
                        l ≠ l' →
                        Forall
                          (λ x, x ∈ arr' →
                                x ∈ (MetroData.interchanges metroData).*1)
                          arr)
                     (MetroData.lines metroData))
                (MetroData.lines metroData)) as Hall
        by (refine (bool_decide_unpack _ _); by vm_compute).
      pose proof (Hall l arr Hl l' arr' Hl' Hne) as Hshared.
      rewrite Forall_forall in Hshared. by apply Hshared.
Qed.

Lemma metroData_is_consistent_witness :
  (interchange (mkStation 1 true) = true
   ↔ "Khemni Chak" ∈ (MetroData.interchanges metroData).*1)
  ∧ ∃ arr, MetroData.lines metroData !! 2 = Some arr ∧ "New ISBT" ∈ arr.
Proof.
  destruct metroData_is_consistent as (_ & Hhome & Hflag & _).
  split.
  - apply (Hflag "Khemni Chak"). by vm_compute.
  - apply (Hhome "New ISBT" (mkStation 2 false)). by vm_compute.
Defined.

(** * A station missing from its line array *)

(** X16.  The same-line branch does not check the result of [indexOf].  When
    the origin is registered on a line but absent from its array, and the
    destination is on the array, the returned path never holds the
    origin: it is empty, or just the destination when that is the last
    station of the array. *)
Theorem origin_missing_from_its_line md a b n1 n2 l :
  MetroData.stations md !! a = Some n1 →
  MetroData.stations md !! b = Some n2 →
  line n1 = line n2 →
  MetroData.lines md !! line n1 = Some l →
  a ∉ l → b ∈ l →
  findRouteIn md a b
  = Normal (Some (Route.mk
                    (if bool_decide (indexOf l b = Z.of_nat (length l) - 1)
                     then [ b ] else [])
                    0 None)).
Proof.
  intros Ha Hb Heq Hl Hnot Hin.
  rewrite (findRouteIn_same_line _ _ _ _ _ _ Ha Hb Heq Hl).
  do 3 f_equal.
  apply indexOf_absent in Hnot. rewrite Hnot.
  destruct (indexOf_found _ _ Hin) as (j & -> & Hj).
  pose proof (lookup_lt_Some _ _ _ Hj) as Hlt.
  unfold spanPath, slice, relativeIndex.
  replace (Z.min (-1) (Z.of_nat j)) with (-1) by lia.
  replace (Z.max (-1) (Z.of_nat j)) with (Z.of_nat j) by lia.
  rewrite (bool_decide_eq_false_2 (-1 > Z.of_nat j)) by lia.
  rewrite (bool_decide_eq_true_2 (-1 < 0)) by lia.
  rewrite (bool_decide_eq_false_2 (Z.of_nat j + 1 < 0)) by lia.
  set (k := Z.max (Z.of_nat (length l) + -1) 0).
  set (final := Z.min (Z.of_nat j + 1) (Z.of_nat (length l))).
  case_bool_decide as Hlast.
  - replace (Z.to_nat k) with j by lia.
    replace (Z.to_nat (final - k)) with 1%nat by lia.
    by rewrite (drop_S _ _ _ Hj).
  - by replace (Z.to_nat (final - k)) with 0%nat by lia.
Qed.

(** On [strayStation] the query from "C" to "A" returns an empty path,
    for which the handler reports minus one station. *)
Lemma origin_missing_from_its_line_witness :
  findRouteIn strayStation "C" "A" = Normal (Some (Route.mk [] 0 None))
  ∧ numberOfStations (Route.mk [] 0 None) = -1.
Proof.
  split; [|done].
  apply (origin_missing_from_its_line strayStation "C" "A"
           (mkStation 1 false) (mkStation 1 false) [ "A"; "B" ]);
    try (by vm_compute).
  - refine (bool_decide_unpack _ _). by vm_compute.
  - by left.
Defined.
